(** * Fitness tracker (homework.py): a shallow embedding and its properties

    The program computes distance, mean speed and spent calories of a
    workout and renders a one-line report.  Python numbers are modelled as
    they are at run time: [int] is an unbounded integer, [float] is an IEEE
    754 binary64 value (the executable specification [spec_float] of the
    standard library, precision 53, maximal exponent 1024), and the
    arithmetic operators follow the coercion rules of the interpreter
    (int op int stays int except for true division, anything else is
    computed in binary64 after converting the integer operand).  The one
    operation that IEEE 754 does not determine, the power of a float, is
    taken from the C library, which is a parameter. *)

From Stdlib Require Import ZArith QArith Qabs Qpower List String Ascii Bool Lia Lqa.
From Stdlib Require Import Floats.SpecFloat DecimalString DecimalPos DecimalN.
From stdpp Require Import gmap strings.

Local Open Scope Z_scope.

(** ** Exceptions and the error monad *)

Inductive exn :=
| ValueError
| TypeError
| KeyError
| ZeroDivisionError
| OverflowError
| NotImplementedError.

Inductive result (A : Type) :=
| Ok (a : A)
| Raise (e : exn).
Arguments Ok {A} a.
Arguments Raise {A} e.

#[global] Instance result_ret : MRet result := fun A a => Ok a.
#[global] Instance result_bind : MBind result := fun A B f m =>
  match m with
  | Ok a => f a
  | Raise e => Raise e
  end.

Definition returns {A} (m : result A) : bool :=
  match m with Ok _ => true | Raise _ => false end.

(** ** Binary64 *)

Module F64.

Definition prec : Z := 53.
Definition emax : Z := 1024.

Definition mul : spec_float -> spec_float -> spec_float := SFmul prec emax.
Definition add : spec_float -> spec_float -> spec_float := SFadd prec emax.
Definition div : spec_float -> spec_float -> spec_float := SFdiv prec emax.

(** An integer as an unrounded significand with exponent 0.  Division of two
    such values rounds the exact quotient once. *)
Definition raw (z : Z) : spec_float :=
  match z with
  | Z0 => S754_zero false
  | Zpos p => S754_finite false p 0
  | Zneg p => S754_finite true p 0
  end.

(** Nearest binary64 value of an integer, ties to even. *)
Definition of_Z (z : Z) : spec_float := binary_normalize prec emax z 0 false.

(** The value of the decimal literal [m]e-[k], correctly rounded, as the
    lexer of the interpreter produces it. *)
Definition lit (m : Z) (k : Z) : spec_float := div (raw m) (raw (10 ^ k)).

(** The rational value of a finite float. *)
Definition to_Q (x : spec_float) : Q :=
  match x with
  | S754_finite s m e => inject_Z (if s then Zneg m else Zpos m) * Qpower 2 e
  | _ => 0%Q
  end.

Definition is_zero (x : spec_float) : bool :=
  match x with S754_zero _ => true | _ => false end.

Definition is_finite (x : spec_float) : bool :=
  match x with S754_zero _ | S754_finite _ _ _ => true | _ => false end.

Definition is_inf (x : spec_float) : bool :=
  match x with S754_infinity _ => true | _ => false end.

End F64.

(** ** Python numbers *)

Inductive num :=
| PInt (z : Z)
| PFloat (f : spec_float).

(** [float(z)] for an integer operand of a float operation: the conversion
    raises OverflowError when the integer is beyond the binary64 range. *)
Definition int_as_double (z : Z) : result spec_float :=
  let f := F64.of_Z z in
  if F64.is_inf f then Raise OverflowError else Ok f.

Definition as_double (x : num) : result spec_float :=
  match x with
  | PInt z => int_as_double z
  | PFloat f => Ok f
  end.

(** [x * y] *)
Definition py_mul (x y : num) : result num :=
  match x, y with
  | PInt a, PInt b => Ok (PInt (a * b))
  | _, _ =>
      a ← as_double x; b ← as_double y; Ok (PFloat (F64.mul a b))
  end.

(** [x + y] *)
Definition py_add (x y : num) : result num :=
  match x, y with
  | PInt a, PInt b => Ok (PInt (a + b))
  | _, _ =>
      a ← as_double x; b ← as_double y; Ok (PFloat (F64.add a b))
  end.

(** [x / y]: true division.  Two integers are divided exactly and the
    quotient is rounded once; a zero divisor raises ZeroDivisionError. *)
Definition py_truediv (x y : num) : result num :=
  match x, y with
  | PInt a, PInt b =>
      if b =? 0 then Raise ZeroDivisionError
      else
        let q := F64.div (F64.raw a) (F64.raw b) in
        if F64.is_inf q then Raise OverflowError else Ok (PFloat q)
  | _, _ =>
      a ← as_double x; b ← as_double y;
      if F64.is_zero b then Raise ZeroDivisionError
      else Ok (PFloat (F64.div a b))
  end.

(** ** The C library

    [x ** 2] on a float is computed by [pow] of the C library.  The C
    standard leaves the accuracy of [pow] to the implementation, and the
    libraries in use differ in the last bit of some results, so the function
    is a parameter of the program: [pow_2 x] is what [pow(x, 2.0)] returns
    for a finite [x > 0]. *)
Class libm := { pow_2 : spec_float -> spec_float }.

(** A library whose [pow] is correctly rounded, to run the program on
    concrete inputs.  Other libraries return a neighbour of its value on some
    arguments: for 0.3332108000000001 ** 2 this one gives
    0.11102943723664006 and glibc 2.36 gives 0.11102943723664005. *)
Definition correctly_rounded : libm := {| pow_2 x := F64.mul x x |}.

(** [x ** 2].  Integers are squared exactly.  On floats the interpreter
    settles NaN, the infinities, the zeros and a base of magnitude 1 by
    itself, calls [pow] on the magnitude of any other base, and raises
    OverflowError when the result is infinite.  (A range error that the
    library reports with a zero result is ignored.) *)
Definition float_pow2 {libc : libm} (f : spec_float) : result spec_float :=
  match f with
  | S754_nan => Ok S754_nan
  | S754_infinity _ => Ok (S754_infinity false)
  | S754_zero _ => Ok (S754_zero false)
  | S754_finite _ _ _ =>
      if SFeqb (SFabs f) (F64.of_Z 1) then Ok (F64.of_Z 1)
      else
        let r := pow_2 (SFabs f) in
        if F64.is_inf r then Raise OverflowError else Ok r
  end.

Definition py_pow2 {libc : libm} (x : num) : result num :=
  match x with
  | PInt a => Ok (PInt (a * a))
  | PFloat f => r ← float_pow2 f; Ok (PFloat r)
  end.

(** [x == y] on numbers compares the exact values; NaN equals nothing. *)
Definition float_eq_Z (f : spec_float) (z : Z) : bool :=
  match f with
  | S754_zero _ => z =? 0
  | S754_finite s m e =>
      let v := if s then Zneg m else Zpos m in
      if 0 <=? e then v * 2 ^ e =? z else v =? z * 2 ^ (- e)
  | _ => false
  end.

Definition py_eq (x y : num) : bool :=
  match x, y with
  | PInt a, PInt b => a =? b
  | PFloat f, PInt b => float_eq_Z f b
  | PInt a, PFloat g => float_eq_Z g a
  | PFloat f, PFloat g => SFeqb f g
  end.

(** Operators on expressions: the left operand is evaluated first, then the
    right one, then the operation is applied. *)
Definition lift2 (op : num -> num -> result num) (a b : result num) : result num :=
  x ← a; y ← b; op x y.

Declare Scope py_scope.
Delimit Scope py_scope with py.
Notation "a *' b" := (lift2 py_mul a b) (at level 40, left associativity) : py_scope.
Notation "a /' b" := (lift2 py_truediv a b) (at level 40, left associativity) : py_scope.
Notation "a +' b" := (lift2 py_add a b) (at level 50, left associativity) : py_scope.
(** A value used as an expression, and [e ** 2]. *)
Definition val (x : num) : result num := Ok x.
Coercion val : num >-> result.

Definition pow2 {libc : libm} (a : result num) : result num := a ≫= py_pow2.


(** Literals of the program text. *)
Definition int_lit (z : Z) : num := PInt z.
Definition float_lit (m k : Z) : num := PFloat (F64.lit m k).

(** ** Fixed-point rendering of numbers: the format code [.Nf] *)

Module Fmt.

Definition digit (d : Z) : ascii := ascii_of_nat (48 + Z.to_nat d).

Definition is_digit (c : ascii) : bool :=
  let n := nat_of_ascii c in (48 <=? n)%nat && (n <=? 57)%nat.

(** Decimal numeral of a natural number, no leading zeros. *)
Definition natural (n : Z) : string := NilZero.string_of_uint (N.to_uint (Z.to_N n)).

(** The [p] low decimal digits of [x], most significant first. *)
Fixpoint digits (p : nat) (x : Z) : string :=
  match p with
  | O => EmptyString
  | S p' => String (digit (x / 10 ^ Z.of_nat p' mod 10)) (digits p' x)
  end.

(** Nearest integer to [a / b] for [b > 0], ties to even. *)
Definition round_half_even (a b : Z) : Z :=
  let q := a / b in
  match (2 * (a mod b) ?= b) with
  | Lt => q
  | Gt => q + 1
  | Eq => if Z.even q then q else q + 1
  end.

(** [m * 2^e * 10^p] rounded to an integer. *)
Definition scaled (p : nat) (m : positive) (e : Z) : Z :=
  if 0 <=? e then Zpos m * 2 ^ e * 10 ^ Z.of_nat p
  else round_half_even (Zpos m * 10 ^ Z.of_nat p) (2 ^ (- e)).

Definition sign (s : bool) : string := if s then "-" else "".

Definition point (p : nat) : string :=
  match p with O => "" | _ => "." end.

Definition fixed_abs (p : nat) (n : Z) : string :=
  natural (n / 10 ^ Z.of_nat p) ++ point p ++ digits p (n mod 10 ^ Z.of_nat p).

Definition float_f (p : nat) (f : spec_float) : string :=
  match f with
  | S754_nan => "nan"
  | S754_infinity s => sign s ++ "inf"
  | S754_zero s => sign s ++ fixed_abs p 0
  | S754_finite s m e => sign s ++ fixed_abs p (scaled p m e)
  end.

(** [format(x, '.Nf')]: an integer is converted to a float first. *)
Definition num_f (p : nat) (x : num) : result string :=
  f ← as_double x; Ok (float_f p f).

(** The shape "optional minus, digits, point, exactly [p] digits". *)
Fixpoint all_digits (s : string) : bool :=
  match s with
  | EmptyString => true
  | String c r => is_digit c && all_digits r
  end.

Fixpoint split_point (s : string) : option (string * string) :=
  match s with
  | EmptyString => None
  | String c r =>
      if Ascii.eqb c "." then Some (EmptyString, r)
      else match split_point r with
           | Some (a, b) => Some (String c a, b)
           | None => None
           end
  end.

Definition strip_minus (s : string) : string :=
  match s with
  | String c r => if Ascii.eqb c "-" then r else s
  | EmptyString => s
  end.

Definition has_decimals (p : nat) (s : string) : bool :=
  match split_point (strip_minus s) with
  | Some (ip, fp) =>
      negb (String.eqb ip "") && all_digits ip && all_digits fp
      && Nat.eqb (String.length fp) p
  | None => false
  end.

End Fmt.

(** ** Values passed to [str.format] and the format mini-language *)

Inductive pyval :=
| VStr (s : string)
| VNum (x : num).

Module Str.

Local Open Scope string_scope.

(** Outcome of a formatting step: a Python result, or a construct outside
    the fragment of the mini-language covered here (conversions,
    attribute and index access, positional fields, width and alignment). *)
Inductive outcome :=
| Done (r : result string)
| Unsupported.

Definition bind (o : outcome) (k : string -> outcome) : outcome :=
  match o with
  | Done (Ok s) => k s
  | _ => o
  end.

(** The format specification [.Nf]. *)
Fixpoint fixed_spec_go (s : string) (acc : option nat) : option nat :=
  match s with
  | EmptyString => None
  | String c r =>
      if Ascii.eqb c "f" then
        match r with EmptyString => acc | _ => None end
      else if Fmt.is_digit c then
        fixed_spec_go r (Some (10 * default 0%nat acc + (nat_of_ascii c - 48))%nat)
      else None
  end.

Definition fixed_spec (spec : string) : option nat :=
  match spec with
  | String c r => if Ascii.eqb c "." then fixed_spec_go r None else None
  | EmptyString => None
  end.

(** [format(v, spec)] *)
Definition format_value (v : pyval) (spec : string) : outcome :=
  match v with
  | VStr s =>
      if String.eqb spec "" then Done (Ok s)
      else match fixed_spec spec with
           | Some _ => Done (Raise ValueError)
           | None => Unsupported
           end
  | VNum x =>
      match fixed_spec spec with
      | Some p => Done (Fmt.num_f p x)
      | None => Unsupported
      end
  end.

Definition name_char (c : ascii) : bool :=
  negb (Ascii.eqb c "." || Ascii.eqb c "[" || Ascii.eqb c "!" || Ascii.eqb c "{").

Fixpoint plain (s : string) : bool :=
  match s with
  | EmptyString => true
  | String c r => name_char c && plain r
  end.

Definition keyword_name (s : string) : bool :=
  match s with
  | EmptyString => false
  | String c _ => negb (Fmt.is_digit c) && plain s
  end.

Definition field (kwargs : gmap string pyval) (name spec : string) : outcome :=
  if keyword_name name then
    match kwargs !! name with
    | Some v => format_value v spec
    | None => Done (Raise KeyError)
    end
  else Unsupported.

Inductive scan :=
| Text
| Name (name : string)
| Spec (name spec : string).

Definition snoc (s : string) (c : ascii) : string := s ++ String c EmptyString.

(** [str.format] with keyword arguments: one pass over the template.  Doubled braces
    are literal braces; [{name}] and [{name:spec}] are replacement fields. *)
Fixpoint format_go (kwargs : gmap string pyval) (t : string) (st : scan) : outcome :=
  match t with
  | EmptyString =>
      match st with
      | Text => Done (Ok "")
      | _ => Done (Raise ValueError)
      end
  | String c r =>
      match st with
      | Text =>
          if Ascii.eqb c "{" then
            match r with
            | String c' r' =>
                if Ascii.eqb c' "{" then
                  bind (format_go kwargs r' Text) (fun s => Done (Ok (String c s)))
                else format_go kwargs r (Name "")
            | EmptyString => Done (Raise ValueError)
            end
          else if Ascii.eqb c "}" then
            match r with
            | String c' r' =>
                if Ascii.eqb c' "}" then
                  bind (format_go kwargs r' Text) (fun s => Done (Ok (String c s)))
                else Done (Raise ValueError)
            | EmptyString => Done (Raise ValueError)
            end
          else bind (format_go kwargs r Text) (fun s => Done (Ok (String c s)))
      | Name n =>
          if Ascii.eqb c "}" then
            bind (field kwargs n "")
                 (fun x => bind (format_go kwargs r Text) (fun s => Done (Ok (x ++ s))))
          else if Ascii.eqb c ":" then format_go kwargs r (Spec n "")
          else format_go kwargs r (Name (snoc n c))
      | Spec n sp =>
          if Ascii.eqb c "}" then
            bind (field kwargs n sp)
                 (fun x => bind (format_go kwargs r Text) (fun s => Done (Ok (x ++ s))))
          else if Ascii.eqb c "{" then Unsupported
          else format_go kwargs r (Spec n (snoc sp c))
      end
  end.

Definition format (template : string) (kwargs : gmap string pyval) : outcome :=
  format_go kwargs template Text.

End Str.

(** ** InfoMessage *)

Module InfoMessage.

Local Open Scope string_scope.

Record t := {
  training_type : string;
  duration : num;
  distance : num;
  speed : num;
  calories : num;
  Message : string
}.

Definition default_Message : string :=
  "Тип тренировки: {training_type}; "
  ++ "Длительность: {duration:.3f} ч.; "
  ++ "Дистанция: {distance:.3f} км; "
  ++ "Ср. скорость: {speed:.3f} км/ч; "
  ++ "Потрачено ккал: {calories:.3f}.".

(** The generated constructor called with five positional arguments. *)
Definition init (training_type : string) (duration distance speed calories : num) : t :=
  {| training_type := training_type; duration := duration; distance := distance;
     speed := speed; calories := calories; Message := default_Message |}.

Definition asdict (self : t) : gmap string pyval :=
  {[ "training_type" := VStr (training_type self);
     "duration" := VNum (duration self);
     "distance" := VNum (distance self);
     "speed" := VNum (speed self);
     "calories" := VNum (calories self);
     "Message" := VStr (Message self) ]}.

Definition get_message (self : t) : Str.outcome :=
  Str.format (Message self) (asdict self).

End InfoMessage.

(** ** The training classes *)

Local Open Scope py_scope.

(** Class attributes, one module per class body. *)
Module Training.
Definition LEN_STEP : num := float_lit 65 2.
Definition M_IN_KM : num := int_lit 1000.
Definition HOURS_IN_MINUTES : num := int_lit 60.
End Training.

Module Running.
Definition CALORIES_MEAN_SPEED_MULTIPLIER : num := int_lit 18.
Definition CALORIES_MEAN_SPEED_SHIFT : num := float_lit 179 2.
End Running.

Module SportsWalking.
Definition MULTIPLIER_CALORIES_1 : num := float_lit 35 3.
Definition MULTIPLIER_CALORIES_2 : num := float_lit 29 3.
Definition KMHOUR_IN_MSECOND : num := float_lit 278 3.
Definition SM_IN_MTR : num := int_lit 100.
End SportsWalking.

Module Swimming.
Definition LEN_STEP : num := float_lit 138 2.
Definition MULTIPLIER_CALORIES_3 : num := float_lit 11 1.
Definition MULTIPLIER_CALORIES_4 : num := int_lit 2.
End Swimming.

Variant klass := Training | Running | SportsWalking | Swimming.

Definition __name__ (c : klass) : string :=
  match c with
  | Training => "Training"
  | Running => "Running"
  | SportsWalking => "SportsWalking"
  | Swimming => "Swimming"
  end.

(** An instance: its class and the attributes its constructor stores. *)
Inductive training :=
| TrainingObj (action duration weight : num)
| RunningObj (action duration weight : num)
| SportsWalkingObj (action duration weight height : num)
| SwimmingObj (action duration weight length_pool count_pool : num).

Definition __class__ (self : training) : klass :=
  match self with
  | TrainingObj _ _ _ => Training
  | RunningObj _ _ _ => Running
  | SportsWalkingObj _ _ _ _ => SportsWalking
  | SwimmingObj _ _ _ _ _ => Swimming
  end.

Definition action (self : training) : num :=
  match self with
  | TrainingObj a _ _ | RunningObj a _ _
  | SportsWalkingObj a _ _ _ | SwimmingObj a _ _ _ _ => a
  end.

Definition duration (self : training) : num :=
  match self with
  | TrainingObj _ d _ | RunningObj _ d _
  | SportsWalkingObj _ d _ _ | SwimmingObj _ d _ _ _ => d
  end.

Definition weight (self : training) : num :=
  match self with
  | TrainingObj _ _ w | RunningObj _ _ w
  | SportsWalkingObj _ _ w _ | SwimmingObj _ _ w _ _ => w
  end.

(** [self.LEN_STEP]: the attribute of the instance's class, found in the
    class itself or else in the base class. *)
Definition LEN_STEP (c : klass) : num :=
  match c with
  | Swimming => Swimming.LEN_STEP
  | _ => Training.LEN_STEP
  end.

Definition get_distance (self : training) : result num :=
  action self *' LEN_STEP (__class__ self) /' Training.M_IN_KM.

Definition get_mean_speed (self : training) : result num :=
  match self with
  | SwimmingObj _ duration _ length_pool count_pool =>
      length_pool *' count_pool /' Training.M_IN_KM /' duration
  | _ => get_distance self /' duration self
  end.

Definition get_spent_calories {libc : libm} (self : training) : result num :=
  match self with
  | TrainingObj _ _ _ => Raise NotImplementedError
  | RunningObj _ duration weight =>
      (Running.CALORIES_MEAN_SPEED_MULTIPLIER
       *' get_mean_speed self
       +' Running.CALORIES_MEAN_SPEED_SHIFT)
      *' weight /' Training.M_IN_KM
      *' duration *' Training.HOURS_IN_MINUTES
  | SportsWalkingObj _ duration weight height =>
      (SportsWalking.MULTIPLIER_CALORIES_1 *' weight
       +' (pow2 (get_mean_speed self *' SportsWalking.KMHOUR_IN_MSECOND)
           /' (height /' SportsWalking.SM_IN_MTR))
          *' SportsWalking.MULTIPLIER_CALORIES_2 *' weight)
      *' (duration *' Training.HOURS_IN_MINUTES)
  | SwimmingObj _ duration weight _ _ =>
      (get_mean_speed self +' Swimming.MULTIPLIER_CALORIES_3)
      *' Swimming.MULTIPLIER_CALORIES_4 *' weight *' duration
  end.

Definition show_training_info {libc : libm} (self : training)
  : result InfoMessage.t :=
  distance ← get_distance self;
  speed ← get_mean_speed self;
  calories ← get_spent_calories self;
  Ok (InfoMessage.init (__name__ (__class__ self)) (duration self)
        distance speed calories).

(** The round trip of the distance constant:
    [self.get_distance() * self.M_IN_KM / self.LEN_STEP]. *)
Definition round_trip (self : training) : result num :=
  get_distance self *' Training.M_IN_KM /' LEN_STEP (__class__ self).

(** ** read_package *)

(** Calling a class with the unpacked list: the arguments are bound by
    position; too few or too many raise TypeError. *)
Definition construct (c : klass) (data : list num) : result training :=
  match c, data with
  | Training, [a; d; w] => Ok (TrainingObj a d w)
  | Running, [a; d; w] => Ok (RunningObj a d w)
  | SportsWalking, [a; d; w; h] => Ok (SportsWalkingObj a d w h)
  | Swimming, [a; d; w; l; n] => Ok (SwimmingObj a d w l n)
  | _, _ => Raise TypeError
  end.

Definition training_types : gmap string klass :=
  {[ "SWM" := Swimming; "RUN" := Running; "WLK" := SportsWalking ]}.

Definition read_package (workout_type : string) (data : list num) : result training :=
  match training_types !! workout_type with
  | None => Raise ValueError
  | Some c => construct c data
  end.

(** [main] without the final [print]: the line that is printed. *)
Definition main {libc : libm} (t : training) : Str.outcome :=
  match show_training_info t with
  | Ok info => InfoMessage.get_message info
  | Raise e => Str.Done (Raise e)
  end.

Definition packages : list (string * list num) :=
  [ ("SWM", [PInt 720; PInt 1; PInt 80; PInt 25; PInt 40]);
    ("RUN", [PInt 15000; PInt 1; PInt 75]);
    ("WLK", [PInt 9000; PInt 1; PInt 75; PInt 180]) ]%string.

(** ** The formulas as the specification words them *)

Module Spec.

Local Open Scope string_scope.

(** (18 * mean_speed + 1.79) * weight / 1000 * duration * 60 *)
Definition running_calories (mean_speed : result num) (weight duration : num) : result num :=
  (int_lit 18 *' mean_speed +' float_lit 179 2)
  *' weight /' int_lit 1000 *' duration *' int_lit 60.


(** (mean_speed + 1.1) * 2 * weight * duration *)
Definition swimming_calories (mean_speed : result num) (weight duration : num)
  : result num :=
  (mean_speed +' float_lit 11 1) *' int_lit 2 *' weight *' duration.

(** length_pool * count_pool / 1000 / duration *)
Definition swimming_speed (length_pool count_pool duration : num) : result num :=
  length_pool *' count_pool /' int_lit 1000 /' duration.

(** action * LEN_STEP / 1000 *)
Definition distance (action len_step : num) : result num :=
  action *' len_step /' int_lit 1000.

(** The report line with the five values in their places. *)
Definition line (name duration distance speed calories : string) : string :=
  "Тип тренировки: " ++ name
  ++ "; Длительность: " ++ duration
  ++ " ч.; Дистанция: " ++ distance
  ++ " км; Ср. скорость: " ++ speed
  ++ " км/ч; Потрачено ккал: " ++ calories ++ ".".

End Spec.

(** ** Predicates on inputs *)

(** A number a float operation accepts: a float, or an integer within the
    binary64 range. *)
Definition is_real (x : num) : bool := returns (as_double x).

(** [x > 0] *)
Definition py_pos (x : num) : bool :=
  match x with
  | PInt z => 0 <? z
  | PFloat f => SFltb (S754_zero false) f
  end.

(** A finite number: [is_real] and neither an infinity nor NaN. *)
Definition is_finite (x : num) : bool :=
  match as_double x with
  | Ok f => F64.is_finite f
  | Raise _ => false
  end.


(** ** Rounding: locating a rational between two integers *)

Module Round.

(** The record [(m, r, s)] locates the non-negative rational [A / B]: [m] is
    its integer part, [r] tells whether the fractional part reaches one half
    and [s] whether it is neither zero nor exactly one half. *)
Definition located (mrs : shr_record) (A B : Z) : Prop :=
  shr_m mrs = A / B
  /\ shr_r mrs = (B <=? 2 * (A mod B))
  /\ shr_s mrs = negb ((A mod B =? 0) || (2 * (A mod B) =? B)).

(** A significand of exactly 53 bits. *)
Definition normal (m : positive) : Prop := 2 ^ 52 <= Zpos m < 2 ^ 53.

(** A positive float with a 53-bit significand and an exponent in
    [lo .. hi]. *)
Definition pnormal (x : spec_float) (lo hi : Z) : Prop :=
  exists (m : positive) (e : Z),
    x = S754_finite false m e /\ normal m /\ lo <= e <= hi.

(** The unit roundoff of binary64. *)
Definition u : Q := 1 # 2 ^ 53.

End Round.

(** ** Outcomes of expressions *)

(** The expression returns a float. *)
Definition is_float (r : result num) : Prop :=
  exists f : spec_float, r = Ok (PFloat f).

(** The expression returns a number a float operation accepts. *)
Definition real_val (r : result num) : Prop :=
  exists y : num, r = Ok y /\ is_real y = true.

(** The expression returns a number that converts to a non-zero float. *)
Definition nonzero_val (r : result num) : Prop :=
  exists (y : num) (f : spec_float),
    r = Ok y /\ as_double y = Ok f /\ F64.is_zero f = false.

(** [lo <= x <= hi] on floats. *)
Definition between (lo x hi : spec_float) : bool :=
  SFleb lo x && SFleb x hi.

(** ** The sessions of the demonstration run *)

Definition demo_swimming : training :=
  SwimmingObj (PInt 720) (PInt 1) (PInt 80) (PInt 25) (PInt 40).
Definition demo_running : training :=
  RunningObj (PInt 15000) (PInt 1) (PInt 75).
Definition demo_walking : training :=
  SportsWalkingObj (PInt 9000) (PInt 1) (PInt 75) (PInt 180).

Definition no_info : InfoMessage.t :=
  InfoMessage.init "" (PInt 0) (PInt 0) (PInt 0) (PInt 0).

Definition info_of {libc : libm} (t : training) : InfoMessage.t :=
  match show_training_info t with
  | Ok info => info
  | Raise _ => no_info
  end.

Definition demo_walking_info : InfoMessage.t :=
  Eval vm_compute in info_of (libc := correctly_rounded) demo_walking.

(** What a successful call built: the class of the code, the fields taken
    from the list in the order of the constructor's parameters. *)
Definition built (workout_type : string) (data : list num) (t : training) : Prop :=
  (workout_type = "SWM"%string
   /\ exists a d w l n, data = [a; d; w; l; n] /\ t = SwimmingObj a d w l n)
  \/ (workout_type = "RUN"%string
      /\ exists a d w, data = [a; d; w] /\ t = RunningObj a d w)
  \/ (workout_type = "WLK"%string
      /\ exists a d w h, data = [a; d; w; h] /\ t = SportsWalkingObj a d w h).

(** The expression returns a float within the relative distance 2^-50 of
    the integer [a]. *)
Definition close_to (r : result num) (a : Z) : Prop :=
  exists f : spec_float,
    r = Ok (PFloat f)
    /\ (Qabs (F64.to_Q f - inject_Z a) <= inject_Z a * (1 # 2 ^ 50))%Q.

(** ** Conversions, closed forms and the script *)

(** [x == 0] *)
Definition py_is_zero (x : num) : bool :=
  match x with
  | PInt z => z =? 0
  | PFloat f => F64.is_zero f
  end.

(** The float a number stands for in a float operation, when it has one. *)
Definition to_double (x : num) : spec_float :=
  match x with
  | PInt z => F64.of_Z z
  | PFloat f => f
  end.

(** The methods as binary64 expressions over converted fields. *)
Definition distance_f64 (action len_step : spec_float) : spec_float :=
  F64.div (F64.mul action len_step) (F64.of_Z 1000).

Definition speed_f64 (action len_step duration : spec_float) : spec_float :=
  F64.div (distance_f64 action len_step) duration.

Definition running_calories_f64 (speed weight duration : spec_float) : spec_float :=
  F64.mul
    (F64.mul
       (F64.div
          (F64.mul (F64.add (F64.mul (F64.of_Z 18) speed) (F64.lit 179 2)) weight)
          (F64.of_Z 1000))
       duration)
    (F64.of_Z 60).

Definition swimming_calories_f64 (speed weight duration : spec_float) : spec_float :=
  F64.mul
    (F64.mul (F64.mul (F64.add speed (F64.lit 11 1)) (F64.of_Z 2)) weight)
    duration.

(** SportsWalking.get_spent_calories over the square that the C library
    returned, the weight, the height in metres and the duration in
    minutes. *)
Definition walking_calories_f64 (square weight height_m minutes : spec_float)
  : spec_float :=
  F64.mul
    (F64.add
       (F64.mul (F64.lit 35 3) weight)
       (F64.mul (F64.mul (F64.div square height_m) (F64.lit 29 3)) weight))
    minutes.

(** The step length of a class as a float. *)
Definition step_f64 (c : klass) : spec_float := to_double (LEN_STEP c).

(** How a run of the script ends. *)
Inductive ending :=
| Finished
| Aborted (e : exn)
| Outside.

(** The loop of the script over a list of packages: each package is read and
    its line printed; the first exception ends the run, and the lines
    printed so far remain. *)
Fixpoint script {libc : libm} (pkgs : list (string * list num))
  : list string * ending :=
  match pkgs with
  | [] => ([], Finished)
  | (workout_type, data) :: rest =>
      match read_package workout_type data with
      | Raise e => ([], Aborted e)
      | Ok training =>
          match main training with
          | Str.Done (Ok line) =>
              let (out, r) := script rest in (line :: out, r)
          | Str.Done (Raise e) => ([], Aborted e)
          | Str.Unsupported => ([], Outside)
          end
      end
  end.

(** One turn of the loop: the package is read and the line of its session
    printed, or one of the two calls raises. *)
Definition turn {libc : libm} (pkg : string * list num) : Str.outcome :=
  match read_package (fst pkg) (snd pkg) with
  | Ok training => main training
  | Raise e => Str.Done (Raise e)
  end.

(** Every package of [pkgs] prints, and [lines] are the lines in the order
    of the packages. *)
Definition printed {libc : libm} (pkgs : list (string * list num))
    (lines : list string) : Prop :=
  Forall2 (fun pkg line => turn pkg = Str.Done (Ok line)) pkgs lines.

(** The number of arguments the constructor of a class takes. *)
Definition arity (c : klass) : nat :=
  match c with
  | Training | Running => 3
  | SportsWalking => 4
  | Swimming => 5
  end.

(** The errors of the arithmetic. *)
Definition arith_error (e : exn) : Prop :=
  e = ZeroDivisionError \/ e = OverflowError.

(** [x >= 0] *)
Definition py_nonneg (x : num) : bool :=
  match x with
  | PInt z => 0 <=? z
  | PFloat f => SFleb (S754_zero false) f
  end.

(** The expression returns a float that is [>= 0]. *)
Definition nonneg_val (r : result num) : Prop :=
  exists f : spec_float, r = Ok (PFloat f) /\ SFleb (S754_zero false) f = true.

(** The expression returns a float within the relative distance [eps] of
    the positive rational [x]. *)
Definition within (r : result num) (x eps : Q) : Prop :=
  exists f : spec_float,
    r = Ok (PFloat f) /\ (Qabs (F64.to_Q f - x) <= x * eps)%Q.

(** A float carrying the sign [s]: not NaN. *)
Definition signed (s : bool) (f : spec_float) : Prop :=
  match f with
  | S754_zero s' | S754_infinity s' | S754_finite s' _ _ => s' = s
  | S754_nan => False
  end.

(** The step length of a class as the decimal of the program text. *)
Definition step_Q (c : klass) : Q :=
  match c with
  | Swimming => 138 # 100
  | _ => 65 # 100
  end.

(** Reading a rendered number back: the digits as an integer. *)
Fixpoint read_digits (s : string) (acc : Z) : Z :=
  match s with
  | EmptyString => acc
  | String c r => read_digits r (10 * acc + (Z.of_nat (nat_of_ascii c) - 48))
  end.

(** The number of thousandths that a rendering with three decimals shows,
    its sign left out. *)
Definition thousandths (s : string) : option Z :=
  match Fmt.split_point (Fmt.strip_minus s) with
  | Some (ip, fp) => Some (read_digits ip 0 * 1000 + read_digits fp 0)
  | None => None
  end.

(** ** Facts on the rounding of binary64 operations *)

Module RoundFacts.
Import Round.

Lemma shr_1_nonneg (m : Z) (r s : bool) :
  0 <= m ->
  shr_1 {| shr_m := m; shr_r := r; shr_s := s |}
  = {| shr_m := m / 2; shr_r := Z.odd m; shr_s := r || s |}.
Proof.
  intros Hm. destruct m as [|p|p]; [reflexivity| |lia].
  destruct p as [p|p|]; cbn [shr_1].
  - f_equal. rewrite Pos2Z.inj_xI. apply Z.div_unique with 1; lia.
  - f_equal. rewrite Pos2Z.inj_xO. apply Z.div_unique with 0; lia.
  - reflexivity.
Qed.

Lemma located_nonneg (x : shr_record) (A B : Z) :
  0 < B -> 0 <= A -> located x A B -> 0 <= shr_m x.
Proof. intros HB HA (-> & _). apply Z.div_pos; lia. Qed.

Lemma shr_1_located (x : shr_record) (A B : Z) :
  0 < B -> 0 <= A -> located x A B -> located (shr_1 x) A (2 * B).
Proof.
  intros HB HA Hx. pose proof (located_nonneg x A B HB HA Hx) as Hm.
  destruct x as [m r s]. cbn [shr_m] in Hm. rewrite shr_1_nonneg by assumption.
  destruct Hx as (Em & Er & Es). cbn [shr_m shr_r shr_s] in *.
  assert (Hdiv : A / (2 * B) = m / 2).
  { rewrite Em, Z.div_div by lia. f_equal. lia. }
  assert (Hmod : A mod (2 * B) = A mod B + B * (m mod 2)).
  { rewrite Em, (Z.mul_comm 2 B). apply Z.rem_mul_r; lia. }
  pose proof (Z.mod_pos_bound A B HB) as Hx.
  pose proof (Zmod_odd m) as Ho.
  unfold located; cbn [shr_m shr_r shr_s].
  rewrite Hdiv, Hmod, Er, Es.
  destruct (Z.odd m); rewrite Ho; repeat split;
    repeat match goal with
    | |- context [?a <=? ?b] => destruct (Z.leb_spec a b)
    | |- context [?a =? ?b] => destruct (Z.eqb_spec a b)
    end; cbn; try reflexivity; exfalso; lia.
Qed.

Lemma pow2_xO (p : positive) : 2 ^ Z.pos p~0 = 2 ^ Zpos p * 2 ^ Zpos p.
Proof. rewrite Pos2Z.inj_xO, <- Z.pow_add_r by lia. f_equal. lia. Qed.

Lemma pow2_xI (p : positive) : 2 ^ Z.pos p~1 = 2 ^ Zpos p * (2 ^ Zpos p * 2).
Proof.
  rewrite Pos2Z.inj_xI, Z.pow_add_r, Z.pow_1_r by lia.
  change (2 * Z.pos p) with (Z.pos p~0). rewrite pow2_xO. ring.
Qed.

Lemma iter_pos_located (p : positive) :
  forall (x : shr_record) (A B : Z),
    0 < B -> 0 <= A -> located x A B ->
    located (SpecFloat.iter_pos shr_1 p x) A (2 ^ Zpos p * B).
Proof.
  induction p as [p IH|p IH|]; intros x A B HB HA Hx; cbn [SpecFloat.iter_pos].
  - rewrite pow2_xI, <- !Z.mul_assoc.
    assert (0 < 2 ^ Zpos p) by (apply Z.pow_pos_nonneg; lia).
    apply IH; [nia..|]. apply IH; [lia..|]. by apply shr_1_located.
  - rewrite pow2_xO, <- !Z.mul_assoc.
    assert (0 < 2 ^ Zpos p) by (apply Z.pow_pos_nonneg; lia).
    apply IH; [nia..|]. by apply IH.
  - change (2 ^ 1) with 2. by apply shr_1_located.
Qed.

Lemma pow2_pred (d : Z) : 0 < d -> 2 ^ d = 2 * 2 ^ (d - 1).
Proof.
  intros Hd. rewrite <- Z.pow_succ_r by lia. f_equal. lia.
Qed.

Lemma digits2_pos_bounds (p : positive) :
  2 ^ (Zpos (digits2_pos p) - 1) <= Zpos p < 2 ^ Zpos (digits2_pos p).
Proof.
  induction p as [p IH|p IH|]; cbn [digits2_pos].
  - rewrite Pos2Z.inj_succ, Pos2Z.inj_xI.
    replace (Z.succ (Z.pos (digits2_pos p)) - 1) with (Z.pos (digits2_pos p)) by lia.
    rewrite Z.pow_succ_r by lia. rewrite (pow2_pred (Z.pos _)) in * by lia. lia.
  - rewrite Pos2Z.inj_succ, Pos2Z.inj_xO.
    replace (Z.succ (Z.pos (digits2_pos p)) - 1) with (Z.pos (digits2_pos p)) by lia.
    rewrite Z.pow_succ_r by lia. rewrite (pow2_pred (Z.pos _)) in * by lia. lia.
  - cbn. lia.
Qed.

Lemma Zdigits2_bounds (m : Z) :
  0 < m -> 2 ^ (Zdigits2 m - 1) <= m < 2 ^ Zdigits2 m.
Proof. destruct m; try lia. intros _. apply digits2_pos_bounds. Qed.

Lemma Zdigits2_pos (m : Z) : 0 < m -> 0 < Zdigits2 m.
Proof. destruct m; cbn; lia. Qed.

Lemma Zdigits2_unique (m k : Z) :
  2 ^ (k - 1) <= m < 2 ^ k -> 0 < k -> Zdigits2 m = k.
Proof.
  intros Hm Hk.
  assert (0 < m) by (pose proof (Z.pow_pos_nonneg 2 (k - 1)); lia).
  pose proof (Zdigits2_bounds m H) as Hd. pose proof (Zdigits2_pos m H) as Hp.
  destruct (Z.lt_trichotomy (Zdigits2 m) k) as [Hlt|[Heq|Hgt]]; [|done|].
  - assert (2 ^ Zdigits2 m <= 2 ^ (k - 1)) by (apply Z.pow_le_mono_r; lia). lia.
  - assert (2 ^ k <= 2 ^ (Zdigits2 m - 1)) by (apply Z.pow_le_mono_r; lia). lia.
Qed.

Lemma shr_m_of_loc (m : Z) (l : location) : shr_m (shr_record_of_loc m l) = m.
Proof. destruct l as [|[]]; reflexivity. Qed.

(** Rounding to nearest, ties to even, moves by at most one half. *)
Lemma round_located (x : shr_record) (A B : Z) :
  0 < B -> 0 <= A -> located x A B ->
  let m1 := round_nearest_even (shr_m x) (loc_of_shr_record x) in
  shr_m x <= m1 <= shr_m x + 1 /\ 2 * Z.abs (m1 * B - A) <= B.
Proof.
  intros HB HA (Em & Er & Es).
  pose proof (Z.mod_pos_bound A B HB) as Hx.
  pose proof (Z.div_mod A B) as Hdm.
  destruct x as [m r s]; cbn [shr_m shr_r shr_s loc_of_shr_record] in *.
  subst m r s.
  destruct (Z.leb_spec B (2 * (A mod B)));
    destruct (Z.eqb_spec (A mod B) 0); destruct (Z.eqb_spec (2 * (A mod B)) B);
    cbn [negb orb round_nearest_even]; try (exfalso; lia);
    try destruct (Z.even (A / B)); split; nia.
Qed.

Lemma fexp_normal (k : Z) : -1074 <= k - 53 -> fexp F64.prec F64.emax k = k - 53.
Proof. unfold fexp, emin, F64.prec, F64.emax. lia. Qed.

Lemma shr_located (x : shr_record) (e n A B : Z) :
  0 < B -> 0 <= A -> 0 <= n -> located x A B ->
  located (fst (shr x e n)) A (2 ^ n * B) /\ snd (shr x e n) = e + n.
Proof.
  intros HB HA Hn Hx. destruct n as [|p|p]; [| |lia]; cbn [shr fst snd].
  - split; [|lia]. by rewrite Z.pow_0_r, Z.mul_1_l.
  - split; [|reflexivity]. by apply iter_pos_located.
Qed.

(** One rounding above the subnormal range: the significand keeps 53 bits
    and is within half a unit of the last place of [A / B * 2^ex]; the
    result is an infinity when the exponent exceeds the format. *)
Lemma binary_round_aux_cases (s : bool) (mx ex : Z) (lx : location) (A B : Z) :
  0 < B -> 0 <= A -> located (shr_record_of_loc mx lx) A B ->
  0 < mx -> 0 <= Zdigits2 mx - 53 ->
  -1074 <= ex + (Zdigits2 mx - 53) ->
  exists (m : positive) (e : Z),
    binary_round_aux F64.prec F64.emax s mx ex lx
    = (if e <=? 971 then S754_finite s m e else S754_infinity s)
    /\ 2 ^ 52 <= Zpos m < 2 ^ 53
    /\ ex + (Zdigits2 mx - 53) <= e <= ex + (Zdigits2 mx - 53) + 1
    /\ 2 * Z.abs (Zpos m * 2 ^ (e - ex) * B - A) <= 2 ^ (Zdigits2 mx - 53) * B.
Proof.
  intros HB HA Hloc Hmx Hn Hlo.
  set (n := Zdigits2 mx - 53) in *.
  assert (Hp : 0 < 2 ^ n) by (apply Z.pow_pos_nonneg; lia).
  unfold binary_round_aux, shr_fexp.
  rewrite fexp_normal by lia.
  replace (Zdigits2 mx + ex - 53 - ex) with n by lia.
  destruct (shr_located (shr_record_of_loc mx lx) ex n A B HB HA Hn Hloc)
    as [Hloc1 He1].
  destruct (shr (shr_record_of_loc mx lx) ex n) as [x1 e1].
  cbn [fst snd] in Hloc1, He1. subst e1.
  destruct (round_located x1 A (2 ^ n * B)) as [Hm1 Herr]; [nia|lia|done|].
  set (m1 := round_nearest_even (shr_m x1) (loc_of_shr_record x1)) in *.
  assert (Hm' : 2 ^ 52 <= shr_m x1 < 2 ^ 53).
  { destruct Hloc1 as (-> & _). destruct Hloc as (Emx & _).
    rewrite shr_m_of_loc in Emx.
    rewrite Z.mul_comm, <- Z.div_div, <- Emx by lia.
    assert (Hb : 2 ^ 52 * 2 ^ n <= mx < 2 ^ 53 * 2 ^ n).
    { pose proof (Zdigits2_bounds mx Hmx) as Hb.
      rewrite <- !Z.pow_add_r by lia.
      replace (52 + n) with (Zdigits2 mx - 1) by lia.
      replace (53 + n) with (Zdigits2 mx) by lia. exact Hb. }
    split.
    - apply Z.div_le_lower_bound; lia.
    - apply Z.div_lt_upper_bound; lia. }
  destruct (Z.eq_dec m1 (2 ^ 53)) as [Hc|Hc].
  - (* the rounding carried into a 54th bit *)
    rewrite Hc, (Zdigits2_unique (2 ^ 53) 54) by (cbn; lia).
    rewrite fexp_normal by lia.
    replace (54 + (ex + n) - 53 - (ex + n)) with 1 by lia.
    cbn -[Z.leb Z.add].
    eexists _, (ex + n + 1). split; [reflexivity|]. split; [cbn; lia|]. split; [lia|].
    replace (ex + n + 1 - ex) with (n + 1) by lia.
    rewrite Z.pow_add_r, Z.pow_1_r by lia.
    rewrite Hc in Herr. cbn in Herr |- *. nia.
  - rewrite (Zdigits2_unique m1 53) by lia.
    rewrite fexp_normal by lia.
    replace (53 + (ex + n) - 53 - (ex + n)) with 0 by lia.
    cbn [shr shr_m shr_record_of_loc].
    destruct m1 as [|m|m] eqn:Em1; [lia| |lia].
    eexists _, (ex + n). split; [reflexivity|]. split; [lia|]. split; [lia|].
    replace (ex + n - ex) with n by lia.
    rewrite <- Z.mul_assoc. exact Herr.
Qed.

Lemma binary_round_aux_normal (s : bool) (mx ex : Z) (lx : location) (A B : Z) :
  0 < B -> 0 <= A -> located (shr_record_of_loc mx lx) A B ->
  0 < mx -> 0 <= Zdigits2 mx - 53 ->
  -1074 <= ex + (Zdigits2 mx - 53) -> ex + (Zdigits2 mx - 53) < 971 ->
  exists (m : positive) (e : Z),
    binary_round_aux F64.prec F64.emax s mx ex lx = S754_finite s m e
    /\ 2 ^ 52 <= Zpos m < 2 ^ 53
    /\ ex + (Zdigits2 mx - 53) <= e <= ex + (Zdigits2 mx - 53) + 1
    /\ 2 * Z.abs (Zpos m * 2 ^ (e - ex) * B - A) <= 2 ^ (Zdigits2 mx - 53) * B.
Proof.
  intros HB HA Hloc Hmx Hn Hlo Hhi.
  destruct (binary_round_aux_cases s mx ex lx A B) as (m & e & E & Hm & He & Herr);
    try assumption.
  exists m, e. destruct (Z.leb_spec e 971); [|lia]. auto.
Qed.

(** The same result measured against the rounded quantity: the relative
    error is at most 2^-53. *)
Lemma binary_round_aux_relative (s : bool) (mx ex : Z) (lx : location) (A B : Z) :
  0 < B -> 0 <= A -> located (shr_record_of_loc mx lx) A B ->
  0 < mx -> 0 <= Zdigits2 mx - 53 ->
  -1074 <= ex + (Zdigits2 mx - 53) -> ex + (Zdigits2 mx - 53) < 971 ->
  exists (m : positive) (e : Z),
    binary_round_aux F64.prec F64.emax s mx ex lx = S754_finite s m e
    /\ normal m
    /\ ex + (Zdigits2 mx - 53) <= e <= ex + (Zdigits2 mx - 53) + 1
    /\ 2 ^ 53 * Z.abs (Zpos m * 2 ^ (e - ex) * B - A) <= A.
Proof.
  intros HB HA Hloc Hmx Hn Hlo Hhi.
  destruct (binary_round_aux_normal s mx ex lx A B) as (m & e & E & Hm & He & Herr);
    try assumption.
  exists m, e. repeat (split; [assumption|]).
  set (n := Zdigits2 mx - 53) in *.
  assert (Hp : 0 < 2 ^ n) by (apply Z.pow_pos_nonneg; lia).
  assert (HA' : 2 ^ 52 * 2 ^ n * B <= A).
  { destruct Hloc as (Emx & _). rewrite shr_m_of_loc in Emx.
    pose proof (Zdigits2_bounds mx Hmx) as Hb.
    replace (Zdigits2 mx - 1) with (52 + n) in Hb by lia.
    rewrite Z.pow_add_r in Hb by lia.
    pose proof (Z.mul_div_le A B HB). nia. }
  change (2 ^ 53) with (2 * 2 ^ 52). nia.
Qed.

Lemma located_exact (m : Z) : located (shr_record_of_loc m loc_Exact) m 1.
Proof.
  unfold located; cbn [shr_record_of_loc shr_m shr_r shr_s].
  rewrite Z.div_1_r, Z.mod_1_r. repeat split.
Qed.

Lemma located_new_location (A B : Z) :
  0 < B -> 0 <= A ->
  located (shr_record_of_loc (A / B) (new_location B (A mod B))) A B.
Proof.
  intros HB HA. pose proof (Z.mod_pos_bound A B HB) as Hx.
  unfold located. rewrite shr_m_of_loc. split; [reflexivity|].
  unfold new_location, new_location_even, new_location_odd.
  destruct (Z.even B) eqn:Ev; destruct (Z.eqb_spec (A mod B) 0) as [E0|E0];
    try (rewrite E0; cbn [shr_record_of_loc shr_r shr_s];
         destruct (Z.leb_spec B (2 * 0)); [lia|]; split; reflexivity).
  - destruct (Z.compare_spec (2 * (A mod B)) B);
      cbn [shr_record_of_loc shr_r shr_s];
      destruct (Z.leb_spec B (2 * (A mod B)));
      destruct (Z.eqb_spec (2 * (A mod B)) B); try lia; split; reflexivity.
  - assert (Hne : 2 * (A mod B) <> B).
    { intros Hc. rewrite <- Hc, Z.even_mul in Ev. discriminate. }
    destruct (Z.compare_spec (2 * (A mod B) + 1) B);
      cbn [shr_record_of_loc shr_r shr_s];
      destruct (Z.leb_spec B (2 * (A mod B)));
      destruct (Z.eqb_spec (2 * (A mod B)) B); try lia; split; reflexivity.
Qed.

Lemma Zdigits2_normal (m : positive) : normal m -> Zdigits2 (Zpos m) = 53.
Proof. intros Hm. apply Zdigits2_unique; [exact Hm|lia]. Qed.

(** Multiplication of two positive normal numbers, away from the limits of
    the exponent range. *)
Lemma mul_normal (sx sy : bool) (mx my : positive) (ex ey : Z) :
  normal mx -> normal my -> -1074 <= ex + ey + 52 -> ex + ey + 53 < 971 ->
  exists (m : positive) (e : Z),
    F64.mul (S754_finite sx mx ex) (S754_finite sy my ey)
    = S754_finite (xorb sx sy) m e
    /\ normal m
    /\ ex + ey + 52 <= e <= ex + ey + 54
    /\ 2 ^ 53 * Z.abs (Zpos m * 2 ^ (e - (ex + ey)) - Zpos mx * Zpos my)
       <= Zpos mx * Zpos my.
Proof.
  intros Hx Hy Hlo Hhi. unfold F64.mul, SFmul.
  assert (Hd : 105 <= Zdigits2 (Zpos (mx * my)) <= 106).
  { unfold normal in *. rewrite Pos2Z.inj_mul.
    assert (Hb : 2 ^ 104 <= Zpos mx * Zpos my < 2 ^ 106).
    { change (2 ^ 104) with (2 ^ 52 * 2 ^ 52).
      change (2 ^ 106) with (2 ^ 53 * 2 ^ 53). nia. }
    destruct (Z_lt_le_dec (Zpos mx * Zpos my) (2 ^ 105)).
    - rewrite (Zdigits2_unique _ 105); lia.
    - rewrite (Zdigits2_unique _ 106); lia. }
  destruct (binary_round_aux_relative (xorb sx sy) (Zpos (mx * my)) (ex + ey)
              loc_Exact (Zpos (mx * my)) 1)
    as (m & e & E & Hm & He & Herr);
    [lia|lia|apply located_exact|lia|lia|lia|lia|].
  exists m, e. split; [exact E|]. split; [exact Hm|]. split; [lia|].
  rewrite Z.mul_1_r, Pos2Z.inj_mul in Herr. exact Herr.
Qed.

(** Division of two positive normal numbers. *)
Lemma div_normal (sx sy : bool) (mx my : positive) (ex ey : Z) :
  normal mx -> normal my -> -1074 <= ex - ey - 53 -> ex - ey - 52 < 971 ->
  exists (m : positive) (e : Z),
    F64.div (S754_finite sx mx ex) (S754_finite sy my ey)
    = S754_finite (xorb sx sy) m e
    /\ normal m
    /\ ex - ey - 53 <= e <= ex - ey - 51
    /\ 2 ^ 53 * Z.abs (Zpos m * 2 ^ (e - (ex - ey - 53)) * Zpos my
                       - Zpos mx * 2 ^ 53)
       <= Zpos mx * 2 ^ 53.
Proof.
  intros Hx Hy Hlo Hhi. unfold F64.div, SFdiv, SFdiv_core_binary.
  rewrite !Zdigits2_normal by assumption.
  replace (53 + ex - (53 + ey)) with (ex - ey) by lia.
  rewrite fexp_normal by lia.
  rewrite Z.min_l by lia.
  replace (ex - ey - (ex - ey - 53)) with 53 by lia.
  rewrite Z.shiftl_mul_pow2 by lia.
  set (A := Zpos mx * 2 ^ 53). set (B := Zpos my).
  assert (HB : 0 < B) by (subst B; lia).
  assert (HA : 0 <= A) by (subst A; lia).
  assert (Hqr : Z.div_eucl A B = (A / B, A mod B)).
  { unfold Z.div, Z.modulo. destruct (Z.div_eucl A B). reflexivity. }
  rewrite Hqr.
  assert (Hq : 2 ^ 52 <= A / B < 2 ^ 54).
  { unfold normal in *. subst A B. split.
    - apply Z.div_le_lower_bound; [lia|]. nia.
    - apply Z.div_lt_upper_bound; [lia|].
      change (2 ^ 54) with (2 ^ 53 * 2). nia. }
  assert (Hd : 53 <= Zdigits2 (A / B) <= 54).
  { destruct (Z_lt_le_dec (A / B) (2 ^ 53)).
    - rewrite (Zdigits2_unique _ 53); lia.
    - rewrite (Zdigits2_unique _ 54); lia. }
  destruct (binary_round_aux_relative (xorb sx sy) (A / B) (ex - ey - 53)
              (new_location B (A mod B)) A B)
    as (m & e & E & Hm & He & Herr);
    [lia|lia|by apply located_new_location|lia|lia|lia|lia|].
  exists m, e. split; [exact E|]. split; [exact Hm|]. split; [lia|]. exact Herr.
Qed.

End RoundFacts.

Module ValueFacts.
Import Round RoundFacts.

Lemma iter_xO (p k : positive) : Zpos (Pos.iter xO p k) = Zpos p * 2 ^ Zpos k.
Proof.
  induction k as [|k IH] using Pos.peano_ind.
  - cbn. lia.
  - rewrite Pos.iter_succ, Pos2Z.inj_xO, IH, Pos2Z.inj_succ, Z.pow_succ_r by lia.
    ring.
Qed.

(** An integer below 2^53 converts exactly. *)
Lemma of_Z_exact (a : Z) :
  0 < a < 2 ^ 53 ->
  exists (m : positive) (e : Z),
    F64.of_Z a = S754_finite false m e
    /\ normal m /\ -52 <= e <= 0 /\ Zpos m = a * 2 ^ (- e).
Proof.
  intros Ha. destruct a as [|p|p]; [lia| |lia].
  unfold F64.of_Z, binary_normalize, binary_round.
  pose proof (digits2_pos_bounds p) as Hb.
  set (d := Zpos (digits2_pos p)) in *.
  assert (Hd : 1 <= d <= 53).
  { split; [subst d; lia|].
    destruct (Z_le_gt_dec d 53) as [|Hgt]; [done|].
    assert (2 ^ 53 <= 2 ^ (d - 1)) by (apply Z.pow_le_mono_r; lia). lia. }
  rewrite Z.add_0_r, fexp_normal by lia.
  assert (Hal : exists mz : positive,
             shl_align p 0 (d - 53) = (mz, d - 53)
             /\ Zpos mz = Zpos p * 2 ^ (53 - d)).
  { unfold shl_align. rewrite Z.sub_0_r.
    destruct (d - 53) as [|q|q] eqn:Eq; [|lia|].
    - exists p. split; [reflexivity|].
      replace (53 - d) with 0 by lia. lia.
    - exists (Pos.iter xO p q). split; [reflexivity|].
      rewrite iter_xO. f_equal. f_equal. lia. }
  destruct Hal as (mz & -> & Emz).
  assert (Hmz : normal mz).
  { unfold normal. rewrite Emz.
    assert (0 < 2 ^ (53 - d)) by (apply Z.pow_pos_nonneg; lia).
    replace (2 ^ 52) with (2 ^ (d - 1) * 2 ^ (53 - d))
      by (rewrite <- Z.pow_add_r by lia; f_equal; lia).
    replace (2 ^ 53) with (2 ^ d * 2 ^ (53 - d))
      by (rewrite <- Z.pow_add_r by lia; f_equal; lia).
    nia. }
  destruct (binary_round_aux_normal false (Zpos mz) (d - 53) loc_Exact (Zpos mz) 1)
    as (m & e & E & Hm & He & Herr);
    [lia|lia|apply located_exact|lia
    |rewrite Zdigits2_normal by done; lia
    |rewrite Zdigits2_normal by done; lia
    |rewrite Zdigits2_normal by done; lia|].
  rewrite Zdigits2_normal in He, Herr by done.
  rewrite Z.sub_diag, Z.add_0_r, Z.mul_1_r in *.
  change (2 ^ 0 * 1) with 1 in Herr.
  assert (Hex : Zpos m * 2 ^ (e - (d - 53)) = Zpos mz) by lia.
  assert (Hee : e = d - 53).
  { destruct (Z.eq_dec e (d - 53)) as [|Hne]; [done|].
    replace (e - (d - 53)) with 1 in Hex by lia.
    unfold normal in *. lia. }
  subst e. rewrite Z.sub_diag, Z.pow_0_r, Z.mul_1_r in Hex.
  exists m, (d - 53). split; [exact E|]. split; [exact Hm|]. split; [lia|].
  rewrite Hex, Emz. f_equal. f_equal. lia.
Qed.

(** Aligning the significand of an integer leaves at least 53 bits. *)
Lemma shl_align_int (p : positive) :
  exists (mz : positive) (ez : Z),
    shl_align p 0 (fexp F64.prec F64.emax (Zpos (digits2_pos p) + 0)) = (mz, ez)
    /\ 0 <= Zdigits2 (Zpos mz) - 53
    /\ -1074 <= ez + (Zdigits2 (Zpos mz) - 53).
Proof.
  pose proof (digits2_pos_bounds p) as Hb.
  set (d := Zpos (digits2_pos p)) in *.
  assert (Hd : 1 <= d) by (subst d; lia).
  rewrite Z.add_0_r, fexp_normal by lia.
  unfold shl_align. rewrite Z.sub_0_r.
  destruct (d - 53) as [|q|q] eqn:Eq.
  - exists p, 0. split; [reflexivity|].
    change (Zdigits2 (Zpos p)) with d. lia.
  - exists p, 0. split; [reflexivity|].
    change (Zdigits2 (Zpos p)) with d. lia.
  - exists (Pos.iter xO p q), (Zneg q). split; [reflexivity|].
    rewrite (Zdigits2_unique _ 53); [lia| |lia].
    rewrite iter_xO.
    assert (0 < 2 ^ Zpos q) by (apply Z.pow_pos_nonneg; lia).
    replace (2 ^ (53 - 1)) with (2 ^ (d - 1) * 2 ^ Zpos q)
      by (rewrite <- Z.pow_add_r by lia; f_equal; lia).
    replace (2 ^ 53) with (2 ^ d * 2 ^ Zpos q)
      by (rewrite <- Z.pow_add_r by lia; f_equal; lia).
    nia.
Qed.

(** A non-zero integer never converts to a zero. *)
Lemma of_Z_not_zero (z : Z) : z <> 0 -> F64.is_zero (F64.of_Z z) = false.
Proof.
  intros Hz. unfold F64.of_Z, binary_normalize, binary_round.
  destruct z as [|p|p]; [done| |];
    destruct (shl_align_int p) as (mz & ez & -> & Hd & Hlo);
    match goal with
    | |- context [binary_round_aux _ _ ?s _ _ _] =>
        destruct (binary_round_aux_cases s (Zpos mz) ez loc_Exact (Zpos mz) 1)
          as (m & e & -> & _); [lia|lia|apply located_exact|lia|lia|lia|]
    end; by destruct (e <=? 971).
Qed.

Local Open Scope Q_scope.

Lemma two_pow_pos (e : Z) : 0 < 2 ^ e.
Proof. apply Qpower_0_lt. reflexivity. Qed.

Lemma to_Q_finite (m : positive) (e E : Z) :
  (E <= e)%Z ->
  F64.to_Q (S754_finite false m e) == inject_Z (Zpos m * 2 ^ (e - E)) * 2 ^ E.
Proof.
  intros HE. cbn [F64.to_Q].
  rewrite inject_Z_mult, Zpower_Qpower by lia.
  replace e with ((e - E) + E)%Z at 1 by lia.
  rewrite Qpower_plus by discriminate.
  change (inject_Z 2) with 2. ring.
Qed.

Lemma to_Q_pos (x : spec_float) (lo hi : Z) : pnormal x lo hi -> 0 < F64.to_Q x.
Proof.
  intros (m & e & -> & _ & _). cbn [F64.to_Q].
  apply Qmult_lt_0_compat; [reflexivity|apply two_pow_pos].
Qed.

Lemma scale_bounds (N A : Z) (S : Q) :
  0 <= S -> (2 ^ 53 * Z.abs (N - A) <= A)%Z ->
  (1 - u) * (inject_Z A * S) <= inject_Z N * S
  /\ inject_Z N * S <= (1 + u) * (inject_Z A * S).
Proof.
  intros HS Herr.
  assert (H1 : ((2 ^ 53 - 1) * A <= 2 ^ 53 * N)%Z) by lia.
  assert (H2 : (2 ^ 53 * N <= (2 ^ 53 + 1) * A)%Z) by lia.
  rewrite Zle_Qle, !inject_Z_mult in H1, H2.
  change (inject_Z (2 ^ 53 - 1)) with (9007199254740991 # 1) in H1.
  change (inject_Z (2 ^ 53)) with (9007199254740992 # 1) in H1, H2.
  change (inject_Z (2 ^ 53 + 1)) with (9007199254740993 # 1) in H2.
  apply (Qmult_le_compat_r _ _ S) in H1, H2; try assumption.
  unfold u. change (2 ^ 53)%positive with 9007199254740992%positive.
  split; lra.
Qed.

Lemma mul_value (x y : spec_float) (lo1 hi1 lo2 hi2 : Z) :
  pnormal x lo1 hi1 -> pnormal y lo2 hi2 ->
  (-1074 <= lo1 + lo2 + 52)%Z -> (hi1 + hi2 + 53 < 971)%Z ->
  pnormal (F64.mul x y) (lo1 + lo2 + 52) (hi1 + hi2 + 54)
  /\ (1 - u) * (F64.to_Q x * F64.to_Q y) <= F64.to_Q (F64.mul x y)
  /\ F64.to_Q (F64.mul x y) <= (1 + u) * (F64.to_Q x * F64.to_Q y).
Proof.
  intros (mx & ex & -> & Hmx & Hex) (my & ey & -> & Hmy & Hey) Hlo Hhi.
  destruct (mul_normal false false mx my ex ey) as (m & e & E & Hm & He & Herr);
    [assumption|assumption|lia|lia|].
  rewrite E. cbn [xorb]. split; [exists m, e; split; [reflexivity|split; [assumption|lia]]|].
  rewrite (to_Q_finite m e (ex + ey)) by lia.
  assert (EV : F64.to_Q (S754_finite false mx ex) * F64.to_Q (S754_finite false my ey)
               == inject_Z (Zpos mx * Zpos my) * 2 ^ (ex + ey)).
  { cbn [F64.to_Q]. rewrite inject_Z_mult, Qpower_plus by discriminate. ring. }
  rewrite EV. apply scale_bounds; [apply Qlt_le_weak, two_pow_pos|exact Herr].
Qed.

Lemma div_value (x y : spec_float) (lo1 hi1 lo2 hi2 : Z) :
  pnormal x lo1 hi1 -> pnormal y lo2 hi2 ->
  (-1074 <= lo1 - hi2 - 53)%Z -> (hi1 - lo2 - 52 < 971)%Z ->
  pnormal (F64.div x y) (lo1 - hi2 - 53) (hi1 - lo2 - 51)
  /\ (1 - u) * F64.to_Q x <= F64.to_Q (F64.div x y) * F64.to_Q y
  /\ F64.to_Q (F64.div x y) * F64.to_Q y <= (1 + u) * F64.to_Q x.
Proof.
  intros (mx & ex & -> & Hmx & Hex) (my & ey & -> & Hmy & Hey) Hlo Hhi.
  destruct (div_normal false false mx my ex ey) as (m & e & E & Hm & He & Herr);
    [assumption|assumption|lia|lia|].
  rewrite E. cbn [xorb]. split; [exists m, e; split; [reflexivity|split; [assumption|lia]]|].
  rewrite (to_Q_finite m e (ex - ey - 53)) by lia.
  assert (EN : inject_Z (Zpos m * 2 ^ (e - (ex - ey - 53))) * 2 ^ (ex - ey - 53)
               * F64.to_Q (S754_finite false my ey)
               == inject_Z (Zpos m * 2 ^ (e - (ex - ey - 53)) * Zpos my)
                  * 2 ^ (ex - 53)).
  { cbn [F64.to_Q]. rewrite (inject_Z_mult _ (Zpos my)).
    replace (ex - 53)%Z with ((ex - ey - 53) + ey)%Z by lia.
    rewrite Qpower_plus by discriminate. ring. }
  assert (EA : F64.to_Q (S754_finite false mx ex)
               == inject_Z (Zpos mx * 2 ^ 53) * 2 ^ (ex - 53)).
  { cbn [F64.to_Q]. rewrite inject_Z_mult.
    replace ex with (53 + (ex - 53))%Z at 1 by lia.
    rewrite Qpower_plus by discriminate.
    change (inject_Z (2 ^ 53)) with (2 ^ 53). ring. }
  rewrite EN, EA. apply scale_bounds; [apply Qlt_le_weak, two_pow_pos|exact Herr].
Qed.

End ValueFacts.

(** ** When expressions return *)

Module PyFacts.
Import Round RoundFacts ValueFacts.

Lemma is_float_real (r : result num) : is_float r -> real_val r.
Proof. intros [f ->]. by exists (PFloat f). Qed.

Lemma real_val_val (x : num) : is_real x = true -> real_val (val x).
Proof. intros H. by exists x. Qed.

Lemma as_double_real (x : num) :
  is_real x = true -> exists f, as_double x = Ok f.
Proof. unfold is_real. destruct (as_double x) as [f|]; [eauto|discriminate]. Qed.

Ltac by_conversion H :=
  match type of H with
  | as_double ?y = Ok _ =>
      destruct y; cbn [as_double mbind result_bind] in H |- *;
      [rewrite H | injection H as ->]; reflexivity
  end.

Lemma py_mul_l (x : spec_float) (y : num) (fy : spec_float) :
  as_double y = Ok fy -> py_mul (PFloat x) y = Ok (PFloat (F64.mul x fy)).
Proof. intros Hy. unfold py_mul. by_conversion Hy. Qed.

Lemma py_mul_r (x : num) (y : spec_float) (fx : spec_float) :
  as_double x = Ok fx -> py_mul x (PFloat y) = Ok (PFloat (F64.mul fx y)).
Proof. intros Hx. unfold py_mul. by_conversion Hx. Qed.

Lemma py_add_l (x : spec_float) (y : num) (fy : spec_float) :
  as_double y = Ok fy -> py_add (PFloat x) y = Ok (PFloat (F64.add x fy)).
Proof. intros Hy. unfold py_add. by_conversion Hy. Qed.

Lemma py_add_r (x : num) (y : spec_float) (fx : spec_float) :
  as_double x = Ok fx -> py_add x (PFloat y) = Ok (PFloat (F64.add fx y)).
Proof. intros Hx. unfold py_add. by_conversion Hx. Qed.

Lemma py_truediv_l (x : spec_float) (y : num) (fy : spec_float) :
  as_double y = Ok fy -> F64.is_zero fy = false ->
  py_truediv (PFloat x) y = Ok (PFloat (F64.div x fy)).
Proof.
  intros Hy Hz. unfold py_truediv.
  destruct y; cbn [as_double mbind result_bind] in Hy |- *;
    [rewrite Hy | injection Hy as ->]; cbn [mbind result_bind];
    by rewrite Hz.
Qed.

Lemma mul_float_l (a b : result num) :
  is_float a -> real_val b -> is_float (a *' b).
Proof.
  intros [x ->] (y & -> & [fy Hy]%as_double_real).
  exists (F64.mul x fy). by apply py_mul_l.
Qed.

Lemma mul_float_r (a b : result num) :
  real_val a -> is_float b -> is_float (a *' b).
Proof.
  intros (x & -> & [fx Hx]%as_double_real) [y ->].
  exists (F64.mul fx y). by apply py_mul_r.
Qed.

Lemma add_float_l (a b : result num) :
  is_float a -> real_val b -> is_float (a +' b).
Proof.
  intros [x ->] (y & -> & [fy Hy]%as_double_real).
  exists (F64.add x fy). by apply py_add_l.
Qed.

Lemma add_float_r (a b : result num) :
  real_val a -> is_float b -> is_float (a +' b).
Proof.
  intros (x & -> & [fx Hx]%as_double_real) [y ->].
  exists (F64.add fx y). by apply py_add_r.
Qed.

Lemma truediv_float_l (a b : result num) :
  is_float a -> nonzero_val b -> is_float (a /' b).
Proof.
  intros [x ->] (y & fy & -> & Hy & Hz).
  exists (F64.div x fy). by apply py_truediv_l.
Qed.

(** A positive number converts to a non-zero float. *)
Lemma pos_nonzero (d : num) :
  is_real d = true -> py_pos d = true -> nonzero_val (val d).
Proof.
  intros [f Hf]%as_double_real Hpos. exists d, f. repeat split; [done|].
  destruct d as [z|g]; cbn in Hf, Hpos.
  - unfold int_as_double in Hf.
    destruct (F64.is_inf (F64.of_Z z)); [discriminate|].
    injection Hf as <-. apply of_Z_not_zero. lia.
  - injection Hf as <-. by destruct g as [[]| | |].
Qed.

Lemma int_lit_real (z : Z) :
  F64.is_inf (F64.of_Z z) = false -> real_val (val (int_lit z)).
Proof.
  intros H. exists (PInt z). split; [done|].
  unfold is_real, as_double, int_as_double. by rewrite H.
Qed.

Lemma int_lit_nonzero (z : Z) :
  F64.is_inf (F64.of_Z z) = false -> F64.is_zero (F64.of_Z z) = false ->
  nonzero_val (val (int_lit z)).
Proof.
  intros H1 H2. exists (PInt z), (F64.of_Z z). repeat split; [|done].
  unfold as_double, int_as_double. by rewrite H1.
Qed.

Lemma float_lit_float (m k : Z) : is_float (val (float_lit m k)).
Proof. by eexists. Qed.

Lemma float_lit_nonzero (m k : Z) :
  F64.is_zero (F64.lit m k) = false -> nonzero_val (val (float_lit m k)).
Proof. intros H. by exists (PFloat (F64.lit m k)), (F64.lit m k). Qed.

End PyFacts.

Create HintDb py_returns.
#[export] Hint Resolve PyFacts.mul_float_l PyFacts.mul_float_r PyFacts.add_float_l
  PyFacts.add_float_r PyFacts.truediv_float_l PyFacts.is_float_real
  PyFacts.real_val_val PyFacts.pos_nonzero PyFacts.float_lit_float : py_returns.
#[export] Hint Extern 1 (real_val (val (int_lit _))) =>
  (apply PyFacts.int_lit_real; reflexivity) : py_returns.
#[export] Hint Extern 1 (nonzero_val (val (int_lit _))) =>
  (apply PyFacts.int_lit_nonzero; reflexivity) : py_returns.
#[export] Hint Extern 1 (nonzero_val (val (float_lit _ _))) =>
  (apply PyFacts.float_lit_nonzero; reflexivity) : py_returns.

(** ** Outcomes of the operators *)

Module OpFacts.
Import Round RoundFacts ValueFacts.

Lemma as_double_cases (x : num) :
  as_double x = if is_real x then Ok (to_double x) else Raise OverflowError.
Proof.
  destruct x as [z|f]; [|reflexivity].
  unfold is_real, as_double, int_as_double, to_double.
  by destruct (F64.is_inf (F64.of_Z z)).
Qed.

Lemma to_double_zero (x : num) : F64.is_zero (to_double x) = py_is_zero x.
Proof.
  destruct x as [z|f]; [|reflexivity]. cbn [to_double py_is_zero].
  destruct (Z.eqb_spec z 0) as [->|Hz]; [reflexivity|].
  by apply of_Z_not_zero.
Qed.

Lemma py_is_zero_real (x : num) : py_is_zero x = true -> is_real x = true.
Proof.
  destruct x as [z|f]; [|reflexivity]. cbn [py_is_zero].
  intros ->%Z.eqb_eq. reflexivity.
Qed.

Lemma py_mul_l_eq (x : spec_float) (y : num) :
  py_mul (PFloat x) y
  = if is_real y then Ok (PFloat (F64.mul x (to_double y)))
    else Raise OverflowError.
Proof.
  pose proof (as_double_cases y) as Hy. unfold py_mul.
  destruct y as [z|f]; [|reflexivity].
  cbn [as_double mbind result_bind] in Hy |- *.
  rewrite Hy; by destruct (is_real _).
Qed.

Lemma py_mul_r_eq (x : num) (y : spec_float) :
  py_mul x (PFloat y)
  = if is_real x then Ok (PFloat (F64.mul (to_double x) y))
    else Raise OverflowError.
Proof.
  pose proof (as_double_cases x) as Hx. unfold py_mul.
  destruct x as [z|f]; [|reflexivity].
  cbn [as_double mbind result_bind] in Hx |- *.
  rewrite Hx; by destruct (is_real _).
Qed.

Lemma py_add_l_eq (x : spec_float) (y : num) :
  py_add (PFloat x) y
  = if is_real y then Ok (PFloat (F64.add x (to_double y)))
    else Raise OverflowError.
Proof.
  pose proof (as_double_cases y) as Hy. unfold py_add.
  destruct y as [z|f]; [|reflexivity].
  cbn [as_double mbind result_bind] in Hy |- *.
  rewrite Hy; by destruct (is_real _).
Qed.

Lemma py_truediv_l_eq (x : spec_float) (y : num) :
  py_truediv (PFloat x) y
  = if is_real y then
      if py_is_zero y then Raise ZeroDivisionError
      else Ok (PFloat (F64.div x (to_double y)))
    else Raise OverflowError.
Proof.
  pose proof (as_double_cases y) as Hy. pose proof (to_double_zero y) as Hz.
  unfold py_truediv.
  destruct y as [z|f]; cbn [as_double mbind result_bind] in Hy |- *.
  - rewrite Hy. destruct (is_real _); cbn [mbind result_bind]; [|reflexivity].
    rewrite Hz. by destruct (py_is_zero _).
  - cbn [to_double py_is_zero is_real returns as_double] in *.
    by destruct (F64.is_zero f).
Qed.

(** An operator returns only if both operands did. *)
Lemma lift2_Ok (op : num -> num -> result num) (a b : result num) (v : num) :
  lift2 op a b = Ok v -> exists x y, a = Ok x /\ b = Ok y /\ op x y = Ok v.
Proof.
  unfold lift2. destruct a as [x|]; [|discriminate].
  destruct b as [y|]; [|discriminate]. cbn. eauto.
Qed.

Lemma lift2_returns_l (op : num -> num -> result num) (a b : result num) :
  returns (lift2 op a b) = true -> returns a = true.
Proof. by destruct a. Qed.

Lemma lift2_returns_r (op : num -> num -> result num) (a b : result num) :
  returns (lift2 op a b) = true -> returns b = true.
Proof. destruct a; [|done]. by destruct b. Qed.

(** True division returns floats only. *)
Lemma py_truediv_float (x y v : num) :
  py_truediv x y = Ok v -> exists f, v = PFloat f.
Proof.
  unfold py_truediv. destruct x as [a|fx], y as [b|fy];
    cbn [as_double mbind result_bind].
  - destruct (b =? 0); [discriminate|].
    destruct (F64.is_inf _); [discriminate|]. intros [= <-]. eauto.
  - destruct (int_as_double a); [|discriminate]. cbn.
    destruct (F64.is_zero fy); [discriminate|]. intros [= <-]. eauto.
  - destruct (int_as_double b) as [g|]; [|discriminate]. cbn.
    destruct (F64.is_zero g); [discriminate|]. intros [= <-]. eauto.
  - destruct (F64.is_zero fy); [discriminate|]. intros [= <-]. eauto.
Qed.

End OpFacts.


Module RoundTrip.
Import Round RoundFacts ValueFacts PyFacts.

Lemma pnormal_not_zero (x : spec_float) (lo hi : Z) :
  pnormal x lo hi -> F64.is_zero x = false.
Proof. by intros (m & e & -> & _). Qed.

Lemma pnormal_not_inf (x : spec_float) (lo hi : Z) :
  pnormal x lo hi -> F64.is_inf x = false.
Proof. by intros (m & e & -> & _). Qed.

Lemma of_Z_value (a : Z) :
  0 < a < 2 ^ 53 ->
  pnormal (F64.of_Z a) (-52) 0 /\ (F64.to_Q (F64.of_Z a) == inject_Z a)%Q.
Proof.
  intros Ha. destruct (of_Z_exact a Ha) as (m & e & -> & Hm & He & Em).
  split; [by exists m, e|].
  cbn [F64.to_Q]. rewrite Em, inject_Z_mult, Zpower_Qpower by lia.
  change (inject_Z 2) with 2%Q.
  rewrite <- Qmult_assoc, <- Qpower_plus by discriminate.
  replace (- e + e) with 0 by lia. cbn. ring.
Qed.

Lemma thousand :
  pnormal (F64.of_Z 1000) (-43) (-43) /\ (F64.to_Q (F64.of_Z 1000) == 1000)%Q.
Proof.
  split; [|reflexivity].
  eexists _, _. split; [vm_compute; reflexivity|]. unfold normal. cbn. lia.
Qed.

Local Open Scope Q_scope.

(** Four roundings: the product, the division by 1000, the product with
    1000 and the division by the step length. *)
Lemma round_trip_value (a : Z) (L : spec_float) :
  (0 < a < 2 ^ 53)%Z -> pnormal L (-53) (-52) ->
  exists r : spec_float,
    (val (PInt a) *' val (PFloat L) /' val (int_lit 1000)
     *' val (int_lit 1000) /' val (PFloat L))%py = Ok (PFloat r)
    /\ Qabs (F64.to_Q r - inject_Z a) <= inject_Z a * (1 # 2 ^ 50).
Proof.
  intros Ha HL.
  destruct (of_Z_value a Ha) as [N0 V0]. destruct thousand as [NK VK].
  destruct (mul_value _ _ _ _ _ _ N0 HL) as (N1 & B1l & B1u); [lia..|].
  destruct (div_value _ _ _ _ _ _ N1 NK) as (N2 & B2l & B2u); [lia..|].
  destruct (mul_value _ _ _ _ _ _ N2 NK) as (N3 & B3l & B3u); [lia..|].
  destruct (div_value _ _ _ _ _ _ N3 HL) as (N4 & B4l & B4u); [lia..|].
  eexists. split.
  - assert (EK : as_double (PInt 1000) = Ok (F64.of_Z 1000)) by reflexivity.
    assert (Ea : as_double (PInt a) = Ok (F64.of_Z a)).
    { cbn [as_double]. unfold int_as_double.
      by rewrite (pnormal_not_inf _ _ _ N0). }
    unfold lift2, val, int_lit. cbn [mbind result_bind].
    rewrite (py_mul_r _ _ _ Ea). cbn [mbind result_bind].
    rewrite (py_truediv_l _ _ _ EK) by reflexivity. cbn [mbind result_bind].
    rewrite (py_mul_l _ _ _ EK). cbn [mbind result_bind].
    rewrite (py_truediv_l _ (PFloat L) L) by (first [reflexivity | eapply pnormal_not_zero, HL]).
    reflexivity.
  - pose proof (to_Q_pos _ _ _ HL) as HLpos.
    set (v0 := F64.to_Q (F64.of_Z a)) in *. set (vL := F64.to_Q L) in *.
    set (vK := F64.to_Q (F64.of_Z 1000)) in *.
    set (x1 := F64.mul (F64.of_Z a) L) in *. set (v1 := F64.to_Q x1) in *.
    set (x2 := F64.div x1 (F64.of_Z 1000)) in *. set (v2 := F64.to_Q x2) in *.
    set (x3 := F64.mul x2 (F64.of_Z 1000)) in *. set (v3 := F64.to_Q x3) in *.
    set (x4 := F64.div x3 L) in *. set (v4 := F64.to_Q x4) in *.
    assert (Hpos : 0 < v0) by (eapply to_Q_pos, N0).
    unfold u in *. change (2 ^ 53)%positive with 9007199254740992%positive in *.
    change (2 ^ 50)%positive with 1125899906842624%positive.
    assert (Hu : v4 * vL <= ((1 + (1 # 1125899906842624)) * v0) * vL) by lra.
    assert (Hl : ((1 - (1 # 1125899906842624)) * v0) * vL <= v4 * vL) by lra.
    apply Qmult_le_r in Hu, Hl; try assumption.
    rewrite <- V0. apply Qabs_Qle_condition. split; lra.
Qed.

End RoundTrip.

(** ** The constants of the program as binary64 values *)

Section Literals.

(** 0.65 = 0x1.4cccccccccccdp-1, 1.38 = 0x1.6147ae147ae14p+0 *)
Example LEN_STEP_bits :
  Training.LEN_STEP = PFloat (S754_finite false 5854679515581645 (-53))
  /\ Swimming.LEN_STEP = PFloat (S754_finite false 6214967485771284 (-52)).
Proof. split; vm_compute; reflexivity. Qed.

(** 1.79 = 0x1.ca3d70a3d70a4p+0 *)
Example CALORIES_MEAN_SPEED_SHIFT_bits :
  Running.CALORIES_MEAN_SPEED_SHIFT
  = PFloat (S754_finite false 8061443332993188 (-52)).
Proof. vm_compute. reflexivity. Qed.

(** 0.035 = 0x1.1eb851eb851ecp-5, 0.029 = 0x1.db22d0e560419p-6,
    0.278 = 0x1.1cac083126e98p-2 *)
Example SportsWalking_bits :
  SportsWalking.MULTIPLIER_CALORIES_1
  = PFloat (S754_finite false 5044031582654956 (-57))
  /\ SportsWalking.MULTIPLIER_CALORIES_2
     = PFloat (S754_finite false 8358680908399641 (-58))
  /\ SportsWalking.KMHOUR_IN_MSECOND
     = PFloat (S754_finite false 5008002785635992 (-54)).
Proof. repeat split; vm_compute; reflexivity. Qed.

(** 1.1 = 0x1.199999999999ap+0 *)
Example MULTIPLIER_CALORIES_3_bits :
  Swimming.MULTIPLIER_CALORIES_3
  = PFloat (S754_finite false 4953959590107546 (-52)).
Proof. vm_compute. reflexivity. Qed.

End Literals.

(** ** Calorie, speed and distance formulas *)

Ltac expose_formula :=
  unfold get_spent_calories, get_mean_speed, get_distance, LEN_STEP, __class__,
    action, duration, weight,
    Training.LEN_STEP, Training.M_IN_KM, Training.HOURS_IN_MINUTES,
    Running.CALORIES_MEAN_SPEED_MULTIPLIER, Running.CALORIES_MEAN_SPEED_SHIFT,
    SportsWalking.MULTIPLIER_CALORIES_1, SportsWalking.MULTIPLIER_CALORIES_2,
    SportsWalking.KMHOUR_IN_MSECOND, SportsWalking.SM_IN_MTR,
    Swimming.LEN_STEP, Swimming.MULTIPLIER_CALORIES_3,
    Swimming.MULTIPLIER_CALORIES_4.

(** The distance is a float as soon as the action count converts. *)
Lemma distance_returns (self : training) :
  is_real (action self) = true -> is_float (get_distance self).
Proof.
  intros Ha. destruct self; expose_formula; cbn in Ha; auto 10 with py_returns.
Qed.

(** SportsWalking.get_spent_calories as one binary64 expression over the
    value that the C library returns for the square. *)
Lemma walking_closed_form {libc : libm} (a d w h minutes : num)
    (speed height_m : spec_float) (s : bool) (m : positive) (e : Z) :
  get_mean_speed (SportsWalkingObj a d w h) = Ok (PFloat speed) ->
  F64.mul speed (F64.lit 278 3) = S754_finite s m e ->
  SFeqb (S754_finite false m e) (F64.of_Z 1) = false ->
  F64.is_inf (pow_2 (S754_finite false m e)) = false ->
  is_real w = true ->
  val h /' val (int_lit 100) = Ok (PFloat height_m) ->
  F64.is_zero height_m = false ->
  val d *' val (int_lit 60) = Ok minutes ->
  is_real minutes = true ->
  get_spent_calories (SportsWalkingObj a d w h)
  = Ok (PFloat (walking_calories_f64 (pow_2 (S754_finite false m e))
                  (to_double w) height_m (to_double minutes))).
Proof.
  intros Hs Hx H1 Hinf Hw Hh Hz Hd Hm.
  assert (E1 : val (float_lit 35 3) *' val w
               = Ok (PFloat (F64.mul (F64.lit 35 3) (to_double w)))).
  { unfold lift2, val, float_lit. cbn [mbind result_bind].
    by rewrite OpFacts.py_mul_l_eq, Hw. }
  assert (E2 : pow2 (get_mean_speed (SportsWalkingObj a d w h) *' float_lit 278 3)
               = Ok (PFloat (pow_2 (S754_finite false m e)))).
  { rewrite Hs. unfold pow2, lift2, val, float_lit.
    cbn [mbind result_bind py_mul as_double py_pow2]. rewrite Hx.
    cbn [float_pow2 SFabs]. rewrite H1, Hinf. reflexivity. }
  cbn [get_spent_calories].
  unfold SportsWalking.MULTIPLIER_CALORIES_1, SportsWalking.MULTIPLIER_CALORIES_2,
    SportsWalking.KMHOUR_IN_MSECOND, SportsWalking.SM_IN_MTR,
    Training.HOURS_IN_MINUTES.
  rewrite E1, E2, Hh, Hd.
  unfold lift2, val, float_lit, walking_calories_f64. cbn [mbind result_bind].
  rewrite OpFacts.py_truediv_l_eq.
  cbn [is_real as_double returns py_is_zero to_double]. rewrite Hz.
  cbn [mbind result_bind]. rewrite OpFacts.py_mul_l_eq.
  cbn [is_real as_double returns to_double mbind result_bind].
  rewrite OpFacts.py_mul_l_eq, Hw. cbn [mbind result_bind].
  rewrite OpFacts.py_add_l_eq.
  cbn [is_real as_double returns to_double mbind result_bind].
  rewrite OpFacts.py_mul_l_eq, Hm. reflexivity.
Qed.

Section Formulas.

Context {libc : libm}.
Variables action duration weight : num.

(** C5. The distance is action * LEN_STEP / 1000 with LEN_STEP = 0.65 for
    Running and SportsWalking and 1.38 for Swimming; it is a float whenever
    the action count is a float or an integer in the binary64 range. *)
Theorem distance_formula (height length_pool count_pool : num) :
  (get_distance (RunningObj action duration weight)
   = Spec.distance action (float_lit 65 2)
   /\ get_distance (SportsWalkingObj action duration weight height)
      = Spec.distance action (float_lit 65 2)
   /\ get_distance (SwimmingObj action duration weight length_pool count_pool)
      = Spec.distance action (float_lit 138 2))
  /\ (is_real action = true ->
      is_float (get_distance (RunningObj action duration weight))
      /\ is_float (get_distance (SportsWalkingObj action duration weight height))
      /\ is_float (get_distance
                     (SwimmingObj action duration weight length_pool count_pool))).
Proof.
  split; [repeat split|].
  intros Ha. repeat split; by apply distance_returns.
Qed.

(** C4. The mean speed of Running and SportsWalking is
    get_distance() / duration; the mean speed of Swimming is
    length_pool * count_pool / 1000 / duration whatever the action count.
    With a positive duration the first two return a float. *)
Theorem mean_speed_formula (height length_pool count_pool : num) :
  (get_mean_speed (RunningObj action duration weight)
   = get_distance (RunningObj action duration weight) /' duration
   /\ get_mean_speed (SportsWalkingObj action duration weight height)
      = get_distance (SportsWalkingObj action duration weight height) /' duration
   /\ get_mean_speed (SwimmingObj action duration weight length_pool count_pool)
      = Spec.swimming_speed length_pool count_pool duration
   /\ forall action' : num,
        get_mean_speed (SwimmingObj action' duration weight length_pool count_pool)
        = get_mean_speed (SwimmingObj action duration weight length_pool count_pool))
  /\ (is_real action = true -> is_real duration = true -> py_pos duration = true ->
      is_float (get_mean_speed (RunningObj action duration weight))
      /\ is_float (get_mean_speed (SportsWalkingObj action duration weight height))).
Proof.
  split; [repeat split|].
  intros Ha Hd Hp. split; expose_formula; auto 10 with py_returns.
Qed.

(** C1. A Running session spends
    (18 * get_mean_speed() + 1.79) * weight / 1000 * duration * 60:
    the code and the formula of the specification have the same outcome
    on every input, and with a positive duration that outcome is a float. *)
Theorem running_calories_formula :
  get_spent_calories (RunningObj action duration weight)
  = Spec.running_calories
      (get_mean_speed (RunningObj action duration weight)) weight duration
  /\ (is_real action = true -> is_real duration = true ->
      py_pos duration = true -> is_real weight = true ->
      is_float (get_spent_calories (RunningObj action duration weight))).
Proof.
  split; [reflexivity|].
  intros Ha Hd Hp Hw. expose_formula. auto 20 with py_returns.
Qed.


(** C3. A Swimming session spends
    (get_mean_speed() + 1.1) * 2 * weight * duration, the duration in hours
    with no conversion to minutes; the outcome is a float whenever the mean
    speed is one. *)
Theorem swimming_calories_formula (length_pool count_pool : num) :
  get_spent_calories (SwimmingObj action duration weight length_pool count_pool)
  = Spec.swimming_calories
      (get_mean_speed (SwimmingObj action duration weight length_pool count_pool))
      weight duration
  /\ (is_float (get_mean_speed
                  (SwimmingObj action duration weight length_pool count_pool)) ->
      is_real weight = true -> is_real duration = true ->
      is_float (get_spent_calories
                  (SwimmingObj action duration weight length_pool count_pool))).
Proof.
  split; [reflexivity|].
  intros Hs Hw Hd.
  unfold get_spent_calories, Swimming.MULTIPLIER_CALORIES_3,
    Swimming.MULTIPLIER_CALORIES_4.
  auto 20 with py_returns.
Qed.

End Formulas.

(** ** The shape of rendered numbers *)

Module FmtFacts.
Import Fmt.
Local Open Scope string_scope.

Lemma is_digit_digit (d : Z) : 0 <= d < 10 -> is_digit (digit d) = true.
Proof.
  intros Hd.
  assert (Hc : d = 0 \/ d = 1 \/ d = 2 \/ d = 3 \/ d = 4 \/ d = 5 \/ d = 6
               \/ d = 7 \/ d = 8 \/ d = 9) by lia.
  repeat (destruct Hc as [-> | Hc]; [reflexivity|]). subst; reflexivity.
Qed.

Lemma all_digits_uint (d : Decimal.uint) :
  all_digits (NilEmpty.string_of_uint d) = true.
Proof. induction d; simpl; auto. Qed.

Lemma natural_digits (n : Z) : all_digits (natural n) = true.
Proof.
  unfold natural, NilZero.string_of_uint.
  destruct (N.to_uint (Z.to_N n)) eqn:E; try reflexivity;
    rewrite <- E; apply all_digits_uint.
Qed.

Lemma natural_nonempty (n : Z) : natural n <> "".
Proof.
  unfold natural, NilZero.string_of_uint.
  destruct (N.to_uint (Z.to_N n)); discriminate.
Qed.

Lemma digits_all (p : nat) (x : Z) : all_digits (digits p x) = true.
Proof.
  induction p as [|p IH]; cbn [digits all_digits]; [reflexivity|].
  rewrite IH, is_digit_digit; [reflexivity|].
  apply Z.mod_pos_bound. lia.
Qed.

Lemma digits_length (p : nat) (x : Z) : String.length (digits p x) = p.
Proof. induction p; cbn [digits String.length]; congruence. Qed.

Lemma digit_not_point (c : ascii) : is_digit c = true -> Ascii.eqb c "." = false.
Proof.
  destruct c as [[] [] [] [] [] [] [] []]; try reflexivity; discriminate.
Qed.

Lemma digit_not_minus (c : ascii) : is_digit c = true -> Ascii.eqb c "-" = false.
Proof.
  destruct c as [[] [] [] [] [] [] [] []]; try reflexivity; discriminate.
Qed.

Lemma split_point_digits (ip fp : string) :
  all_digits ip = true ->
  split_point (ip ++ String "." fp) = Some (ip, fp).
Proof.
  induction ip as [|c ip IH]; simpl; [reflexivity|].
  intros [Hc Hip]%andb_prop.
  rewrite (digit_not_point c Hc), (IH Hip). reflexivity.
Qed.

(** A number rendered with [S p] decimals: optional sign, integer digits,
    the point, exactly [S p] digits. *)
Lemma fixed_abs_decimals (p : nat) (n : Z) (s : bool) :
  has_decimals (S p) (sign s ++ fixed_abs (S p) n) = true.
Proof.
  unfold has_decimals, fixed_abs.
  set (ip := natural _). set (fp := digits _ _).
  assert (Hip : all_digits ip = true) by apply natural_digits.
  assert (Hne : ip <> "") by apply natural_nonempty.
  assert (Hstrip : strip_minus (sign s ++ ip ++ point (S p) ++ fp)
                   = ip ++ String "." fp).
  { destruct s; simpl.
    - reflexivity.
    - destruct ip as [|c ip']; [congruence|]. simpl in *.
      apply andb_prop in Hip as [Hc _].
      rewrite (digit_not_minus c Hc). reflexivity. }
  rewrite Hstrip, split_point_digits by assumption.
  rewrite Hip. subst fp. rewrite digits_all, digits_length, Nat.eqb_refl.
  destruct ip; [congruence|reflexivity].
Qed.

Lemma float_f_decimals (p : nat) (f : spec_float) :
  F64.is_finite f = true -> has_decimals (S p) (float_f (S p) f) = true.
Proof.
  destruct f; simpl; try discriminate; intros _; apply fixed_abs_decimals.
Qed.

Lemma num_f_finite (p : nat) (x : num) :
  is_finite x = true ->
  exists f, as_double x = Ok f /\ F64.is_finite f = true
            /\ num_f p x = Ok (float_f p f).
Proof.
  unfold is_finite, num_f. destruct (as_double x) as [f|e]; [|discriminate].
  intros Hf. exists f. auto.
Qed.

End FmtFacts.

(** ** The report line *)

Section Report.

Local Open Scope string_scope.

Lemma field_lookup (kwargs : gmap string pyval) (name spec : string) (v : pyval) :
  Str.keyword_name name = true -> kwargs !! name = Some v ->
  Str.field kwargs name spec = Str.format_value v spec.
Proof. unfold Str.field. intros -> ->. reflexivity. Qed.

(** C7. A report with finite numeric fields renders as the single line
    "Тип тренировки: name; Длительность: d ч.; Дистанция: s км;
     Ср. скорость: v км/ч; Потрачено ккал: c." where d, s, v, c are the
    duration, the distance, the speed and the calories, in this order, each
    with exactly three decimals. *)
Theorem report_line (name : string) (duration distance speed calories : num) :
  is_finite duration = true -> is_finite distance = true ->
  is_finite speed = true -> is_finite calories = true ->
  exists s1 s2 s3 s4 : string,
    Fmt.num_f 3 duration = Ok s1 /\ Fmt.num_f 3 distance = Ok s2
    /\ Fmt.num_f 3 speed = Ok s3 /\ Fmt.num_f 3 calories = Ok s4
    /\ Fmt.has_decimals 3 s1 = true /\ Fmt.has_decimals 3 s2 = true
    /\ Fmt.has_decimals 3 s3 = true /\ Fmt.has_decimals 3 s4 = true
    /\ InfoMessage.get_message
         (InfoMessage.init name duration distance speed calories)
       = Str.Done (Ok (Spec.line name s1 s2 s3 s4)).
Proof.
  intros (f1 & _ & H1 & E1)%(FmtFacts.num_f_finite 3)
         (f2 & _ & H2 & E2)%(FmtFacts.num_f_finite 3)
         (f3 & _ & H3 & E3)%(FmtFacts.num_f_finite 3)
         (f4 & _ & H4 & E4)%(FmtFacts.num_f_finite 3).
  exists (Fmt.float_f 3 f1), (Fmt.float_f 3 f2), (Fmt.float_f 3 f3), (Fmt.float_f 3 f4).
  repeat (split; [first [assumption | by apply FmtFacts.float_f_decimals]|]).
  unfold InfoMessage.get_message, Str.format.
  set (kw := InfoMessage.asdict _).
  assert (K0 : Str.field kw "training_type" "" = Str.Done (Ok name)).
  { rewrite (field_lookup kw _ _ (VStr name)); [reflexivity..|]. by vm_compute. }
  assert (K1 : Str.field kw "duration" ".3f" = Str.Done (Ok (Fmt.float_f 3 f1))).
  { rewrite (field_lookup kw _ _ (VNum duration)); [|reflexivity|by vm_compute].
    change (Str.format_value (VNum duration) ".3f")
      with (Str.Done (Fmt.num_f 3 duration)).
    by rewrite E1. }
  assert (K2 : Str.field kw "distance" ".3f" = Str.Done (Ok (Fmt.float_f 3 f2))).
  { rewrite (field_lookup kw _ _ (VNum distance)); [|reflexivity|by vm_compute].
    change (Str.format_value (VNum distance) ".3f")
      with (Str.Done (Fmt.num_f 3 distance)).
    by rewrite E2. }
  assert (K3 : Str.field kw "speed" ".3f" = Str.Done (Ok (Fmt.float_f 3 f3))).
  { rewrite (field_lookup kw _ _ (VNum speed)); [|reflexivity|by vm_compute].
    change (Str.format_value (VNum speed) ".3f")
      with (Str.Done (Fmt.num_f 3 speed)).
    by rewrite E3. }
  assert (K4 : Str.field kw "calories" ".3f" = Str.Done (Ok (Fmt.float_f 3 f4))).
  { rewrite (field_lookup kw _ _ (VNum calories)); [|reflexivity|by vm_compute].
    change (Str.format_value (VNum calories) ".3f")
      with (Str.Done (Fmt.num_f 3 calories)).
    by rewrite E4. }
  clearbody kw.
  cbv -[Str.field Fmt.float_f Str.bind Spec.line].
  rewrite K0. cbn [Str.bind]. rewrite K1. cbn [Str.bind]. rewrite K2. cbn [Str.bind].
  rewrite K3. cbn [Str.bind]. rewrite K4. cbn [Str.bind].
  reflexivity.
Qed.

End Report.

(** ** read_package *)

Section Dispatch.

Context {libc : libm}.

Local Open Scope string_scope.

Lemma training_types_lookup (w : string) :
  training_types !! w
  = if decide (w = "SWM") then Some Swimming
    else if decide (w = "RUN") then Some Running
    else if decide (w = "WLK") then Some SportsWalking
    else None.
Proof.
  unfold training_types.
  repeat case_decide; subst; simplify_map_eq; done.
Qed.

Lemma construct_not_ValueError (c : klass) (data : list num) :
  construct c data <> Raise ValueError.
Proof.
  destruct c; simpl; repeat (destruct data as [|? data]; try discriminate).
Qed.

Lemma construct_Swimming (data : list num) (t : training) :
  construct Swimming data = Ok t
  <-> exists a d w l n, data = [a; d; w; l; n] /\ t = SwimmingObj a d w l n.
Proof.
  split.
  - simpl. repeat (destruct data as [|? data]; try discriminate).
    intros [= <-]. eauto 10.
  - intros (a & d & w & l & n & -> & ->). reflexivity.
Qed.

Lemma construct_Running (data : list num) (t : training) :
  construct Running data = Ok t
  <-> exists a d w, data = [a; d; w] /\ t = RunningObj a d w.
Proof.
  split.
  - simpl. repeat (destruct data as [|? data]; try discriminate).
    intros [= <-]. eauto 10.
  - intros (a & d & w & -> & ->). reflexivity.
Qed.

Lemma construct_SportsWalking (data : list num) (t : training) :
  construct SportsWalking data = Ok t
  <-> exists a d w h, data = [a; d; w; h] /\ t = SportsWalkingObj a d w h.
Proof.
  split.
  - simpl. repeat (destruct data as [|? data]; try discriminate).
    intros [= <-]. eauto 10.
  - intros (a & d & w & h & -> & ->). reflexivity.
Qed.

Lemma read_package_built (workout_type : string) (data : list num) (t : training) :
  read_package workout_type data = Ok t <-> built workout_type data t.
Proof.
  unfold read_package, built. rewrite training_types_lookup.
  repeat case_decide; subst.
  all: try rewrite construct_Swimming; try rewrite construct_Running;
       try rewrite construct_SportsWalking.
  all: split; intros HH.
  all: try done.
  all: try (left; done); try (right; left; done); try (right; right; done).
  all: try (destruct HH as [[? HH]|[[? HH]|[? HH]]]; done).
Qed.

(** C6. read_package raises ValueError exactly for the codes other than
    SWM, RUN and WLK; a call that succeeds built a Swimming, Running or
    SportsWalking session for these codes respectively, with the fields bound
    from the list by position. *)
Theorem read_package_dispatch (workout_type : string) (data : list num) :
  (read_package workout_type data = Raise ValueError
   <-> workout_type <> "SWM" /\ workout_type <> "RUN" /\ workout_type <> "WLK")
  /\ (forall t : training,
        read_package workout_type data = Ok t <-> built workout_type data t)
  /\ (forall a d w l n : num,
        read_package "SWM" [a; d; w; l; n] = Ok (SwimmingObj a d w l n))
  /\ (forall a d w : num,
        read_package "RUN" [a; d; w] = Ok (RunningObj a d w))
  /\ (forall a d w h : num,
        read_package "WLK" [a; d; w; h] = Ok (SportsWalkingObj a d w h)).
Proof.
  split; [|split; [intros t; apply read_package_built|repeat split]].
  unfold read_package. rewrite training_types_lookup.
  repeat case_decide; subst; split; intros HH.
  all: try (exfalso; exact (construct_not_ValueError _ _ HH)).
  all: try done.
  all: destruct HH as (? & ? & ?); done.
Qed.

(** The label of a report is the name of the class of the session. *)
Lemma show_training_info_label (t : training) (info : InfoMessage.t) :
  show_training_info t = Ok info ->
  InfoMessage.training_type info = __name__ (__class__ t).
Proof.
  unfold show_training_info.
  destruct (get_distance t); [|discriminate].
  destruct (get_mean_speed t); [|discriminate].
  destruct (get_spent_calories t); [|discriminate].
  cbn. by intros [= <-].
Qed.

(** C10. The label of the report of a session built by read_package is the
    class name: "Swimming" for SWM, "Running" for RUN and "SportsWalking"
    for WLK. *)
Theorem report_label (workout_type : string) (data : list num)
    (t : training) (info : InfoMessage.t) :
  read_package workout_type data = Ok t ->
  show_training_info t = Ok info ->
  InfoMessage.training_type info = __name__ (__class__ t)
  /\ ((workout_type = "SWM" /\ InfoMessage.training_type info = "Swimming")
      \/ (workout_type = "RUN" /\ InfoMessage.training_type info = "Running")
      \/ (workout_type = "WLK"
          /\ InfoMessage.training_type info = "SportsWalking")).
Proof.
  intros Hr Hs. apply show_training_info_label in Hs. split; [exact Hs|].
  apply read_package_built in Hr.
  destruct Hr as [[-> Hr]|[[-> Hr]|[-> Hr]]].
  - left. destruct Hr as (a & d & w & l & n & _ & ->). by rewrite Hs.
  - right; left. destruct Hr as (a & d & w & _ & ->). by rewrite Hs.
  - right; right. destruct Hr as (a & d & w & h & _ & ->). by rewrite Hs.
Qed.

End Dispatch.

(** ** The demonstration run *)

Section Demo.

Context {libc : libm}.
Local Open Scope string_scope.

Example demo_swimming_line :
  main demo_swimming
  = Str.Done (Ok "Тип тренировки: Swimming; Длительность: 1.000 ч.; Дистанция: 0.994 км; Ср. скорость: 1.000 км/ч; Потрачено ккал: 336.000.").
Proof. vm_compute. reflexivity. Qed.

Example demo_running_line :
  main demo_running
  = Str.Done (Ok "Тип тренировки: Running; Длительность: 1.000 ч.; Дистанция: 9.750 км; Ср. скорость: 9.750 км/ч; Потрачено ккал: 797.805.").
Proof. vm_compute. reflexivity. Qed.

(** Infinities and NaN are rendered as words, without decimals. *)
Example float_f_not_finite :
  Fmt.float_f 3 (S754_infinity false) = "inf"
  /\ Fmt.float_f 3 (S754_infinity true) = "-inf"
  /\ Fmt.float_f 3 S754_nan = "nan".
Proof. repeat split. Qed.

Example demo_packages :
  map (fun p => read_package (fst p) (snd p)) packages
  = [Ok demo_swimming; Ok demo_running; Ok demo_walking].
Proof. vm_compute. reflexivity. Qed.

(** (18 * 9.75 + 1.79) * 75 / 1000 * 1 * 60 in binary64:
    0x1.8ee70a3d70a3dp+9, the float nearest to 797.805. *)
Example demo_running_calories_bits :
  get_spent_calories demo_running
  = Ok (PFloat (S754_finite false 7017566993582653 (-43)))
  /\ F64.lit 797805 3 = S754_finite false 7017566993582653 (-43).
Proof. split; vm_compute; reflexivity. Qed.

(** C8, amended. For the Running session with action = 15000, duration = 1
    and weight = 75 the distance and the mean speed are 9.750, the spent
    calories are 797.805 up to 1e-9 and the report shows 797.805. *)
Theorem demo_running_values :
  get_distance demo_running = Ok (float_lit 9750 3)
  /\ get_mean_speed demo_running = Ok (float_lit 9750 3)
  /\ exists c : spec_float,
       get_spent_calories demo_running = Ok (PFloat c)
       /\ between (F64.lit 797804999999 9) c (F64.lit 797805000001 9) = true
       /\ Fmt.num_f 3 (PFloat c) = Ok "797.805"
       /\ InfoMessage.calories (info_of demo_running) = PFloat c.
Proof.
  split; [vm_compute; reflexivity|]. split; [vm_compute; reflexivity|].
  eexists. split; [vm_compute; reflexivity|].
  split; [vm_compute; reflexivity|]. split; vm_compute; reflexivity.
Qed.

Example round_trip_demo :
  (exists r, round_trip demo_running = Ok r /\ py_eq r (PInt 15000) = true)
  /\ (exists r, round_trip demo_walking = Ok r /\ py_eq r (PInt 9000) = true)
  /\ (exists r, round_trip demo_swimming = Ok r /\ py_eq r (PInt 720) = true).
Proof. repeat split; eexists; split; vm_compute; reflexivity. Qed.

(** The walking session squares 5.85 * 0.278, the float 1.6263.  The
    examples hold with every library that returns the float
    2.6448516900000003 for it: the correctly rounded square, which is also
    the value of glibc. *)
Hypothesis square_of_1_6263 :
  pow_2 (F64.lit 16263 4) = F64.lit 26448516900000003 16.

Lemma demo_walking_calories :
  get_spent_calories demo_walking
  = Ok (PFloat (walking_calories_f64 (F64.lit 26448516900000003 16)
                  (F64.of_Z 75) (F64.lit 18 1) (F64.of_Z 60))).
Proof.
  assert (Hx : F64.lit 16263 4 = S754_finite false 7324204073992638 (-52))
    by (vm_compute; reflexivity).
  pose proof square_of_1_6263 as Hsq. rewrite Hx in Hsq.
  rewrite <- Hsq.
  apply (walking_closed_form (PInt 9000) (PInt 1) (PInt 75) (PInt 180) (PInt 60)
           (F64.lit 585 2) (F64.lit 18 1) false 7324204073992638 (-52)).
  all: try (vm_compute; reflexivity).
  rewrite Hsq. reflexivity.
Qed.

Example demo_walking_line :
  main demo_walking
  = Str.Done (Ok "Тип тренировки: SportsWalking; Длительность: 1.000 ч.; Дистанция: 5.850 км; Ср. скорость: 5.850 км/ч; Потрачено ккал: 349.252.").
Proof.
  unfold main, show_training_info. rewrite demo_walking_calories.
  vm_compute. reflexivity.
Qed.

(** Outcomes include exceptions: a subnormal height makes height / 100 a
    zero, and the code and the formula both raise ZeroDivisionError. *)
Example walking_subnormal_height :
  get_spent_calories
    (SportsWalkingObj (PInt 9000) (PInt 1) (PInt 75)
       (PFloat (S754_finite false 1 (-1074))))
  = Raise ZeroDivisionError
  /\ get_spent_calories (SportsWalkingObj (PInt 9000) (PInt 0) (PInt 75) (PInt 180))
     = Raise ZeroDivisionError
  /\ get_distance (RunningObj (PInt (10 ^ 400)) (PInt 1) (PInt 75))
     = Raise OverflowError.
Proof.
  split; [|split; vm_compute; reflexivity].
  assert (E : pow2 (get_mean_speed
                      (SportsWalkingObj (PInt 9000) (PInt 1) (PInt 75)
                         (PFloat (S754_finite false 1 (-1074))))
                    *' float_lit 278 3)
              = Ok (PFloat (F64.lit 26448516900000003 16))).
  { assert (Hx : F64.lit 16263 4 = S754_finite false 7324204073992638 (-52))
      by (vm_compute; reflexivity).
    pose proof square_of_1_6263 as Hsq. rewrite Hx in Hsq.
    assert (Hs : get_mean_speed
                   (SportsWalkingObj (PInt 9000) (PInt 1) (PInt 75)
                      (PFloat (S754_finite false 1 (-1074))))
                 *' float_lit 278 3
                 = Ok (PFloat (S754_finite false 7324204073992638 (-52))))
      by (vm_compute; reflexivity).
    rewrite Hs. unfold pow2. cbn [mbind result_bind py_pow2 float_pow2 SFabs].
    assert (H1 : SFeqb (S754_finite false 7324204073992638 (-52)) (F64.of_Z 1)
                 = false) by (vm_compute; reflexivity).
    rewrite H1, Hsq. reflexivity. }
  cbn [get_spent_calories]. unfold SportsWalking.KMHOUR_IN_MSECOND.
  rewrite E. vm_compute. reflexivity.
Qed.

(** The last bit of the calories follows the C library.  The session
    (1844, 1, 75, 180) squares 0.3332108000000001: with a library that
    returns 0.11102943723664005, as glibc 2.36 does, the calories are
    165.54963419965642; with the correctly rounded 0.11102943723664006 they
    are 165.54963419965645. *)
Example walking_last_bit :
  (pow_2 (F64.lit 3332108000000001 16) = F64.lit 11102943723664005 17 ->
   get_spent_calories (SportsWalkingObj (PInt 1844) (PInt 1) (PInt 75) (PInt 180))
   = Ok (PFloat (F64.lit 16554963419965642 14)))
  /\ (pow_2 (F64.lit 3332108000000001 16) = F64.lit 11102943723664006 17 ->
      get_spent_calories
        (SportsWalkingObj (PInt 1844) (PInt 1) (PInt 75) (PInt 180))
      = Ok (PFloat (F64.lit 16554963419965645 14))).
Proof.
  assert (Hx : F64.lit 3332108000000001 16
               = S754_finite false 6002592138863301 (-54))
    by (vm_compute; reflexivity).
  rewrite Hx.
  split; intros Hsq;
    rewrite (walking_closed_form (PInt 1844) (PInt 1) (PInt 75) (PInt 180)
               (PInt 60) (F64.lit 11986 4) (F64.lit 18 1)
               false 6002592138863301 (-54));
    rewrite ?Hsq; vm_compute; reflexivity.
Qed.

End Demo.

Section DemoRefuted.

(** The calories of the Running demonstration are neither about 797.0028
    nor rendered as 797.003, whatever the C library. *)
Lemma demo_running_not_797_003 :
  ~ exists libc : libm,
      get_distance demo_running = Ok (float_lit 9750 3)
      /\ get_mean_speed demo_running = Ok (float_lit 9750 3)
      /\ exists c : spec_float,
           get_spent_calories demo_running = Ok (PFloat c)
           /\ between (F64.lit 79700275 5) c (F64.lit 79700285 5) = true
           /\ Fmt.num_f 3 (PFloat c) = Ok "797.003".
Proof.
  intros (libc & _ & _ & c & Hc & _ & Hr).
  vm_compute in Hc. injection Hc as <-. vm_compute in Hr. discriminate.
Qed.

(** The round trip of the distance constant misses the action count 7:
    7 * 0.65 / 1000 * 1000 / 0.65 is 0x1.bffffffffffffp+2, that is
    6.999999999999999. *)
Lemma round_trip_misses_7 :
  exists r : num,
    round_trip (RunningObj (PInt 7) (PInt 1) (PInt 75)) = Ok r
    /\ r = PFloat (S754_finite false 7881299347898367 (-50))
    /\ py_eq r (PInt 7) = false.
Proof. eexists. repeat split; vm_compute; reflexivity. Qed.

End DemoRefuted.

(** ** The round trip of the distance constant *)

Section RoundTripClaim.

Import Round RoundFacts ValueFacts RoundTrip.

Lemma step_lengths :
  pnormal (F64.lit 65 2) (-53) (-52) /\ pnormal (F64.lit 138 2) (-53) (-52).
Proof.
  split; eexists _, _; (split; [vm_compute; reflexivity|]);
    unfold normal; cbn; lia.
Qed.

Lemma round_trip_zero (L : spec_float) :
  pnormal L (-53) (-52) ->
  close_to (val (PInt 0) *' val (PFloat L) /' val (int_lit 1000)
            *' val (int_lit 1000) /' val (PFloat L)) 0.
Proof.
  intros (m & e & -> & _). exists (S754_zero false). split; [|discriminate].
  reflexivity.
Qed.

Lemma round_trip_close (a : Z) (L : spec_float) :
  0 <= a < 2 ^ 53 -> pnormal L (-53) (-52) ->
  close_to (val (PInt a) *' val (PFloat L) /' val (int_lit 1000)
            *' val (int_lit 1000) /' val (PFloat L)) a.
Proof.
  intros Ha HL. destruct (Z.eq_dec a 0) as [->|Hne].
  - by apply round_trip_zero.
  - apply round_trip_value; [lia|done].
Qed.

(** C9, amended. For an integer action count 0 <= action < 2^53 and each of
    the three variants, get_distance() * 1000 / LEN_STEP returns a float
    within the relative distance 2^-50 of the action count. *)
Theorem round_trip_bound (a : Z) (d w h l c : num) :
  0 <= a < 2 ^ 53 ->
  close_to (round_trip (RunningObj (PInt a) d w)) a
  /\ close_to (round_trip (SportsWalkingObj (PInt a) d w h)) a
  /\ close_to (round_trip (SwimmingObj (PInt a) d w l c)) a.
Proof.
  intros Ha. destruct step_lengths as [H65 H138].
  repeat split; apply round_trip_close; assumption.
Qed.

End RoundTripClaim.

(** ** Instances on the demonstration sessions *)

Section Instances.

(** The instances are run with the correctly rounded [pow]. *)
#[local] Existing Instance correctly_rounded.

Local Open Scope string_scope.

Lemma distance_formula_witness :
  is_real (PInt 15000) = true
  /\ is_float (get_distance demo_running).
Proof.
  split; [reflexivity|].
  apply (proj2 (distance_formula (PInt 15000) (PInt 1) (PInt 75)
                  (PInt 180) (PInt 25) (PInt 40))).
  reflexivity.
Defined.

Lemma mean_speed_formula_witness :
  is_real (PInt 9000) = true /\ is_real (PInt 1) = true
  /\ py_pos (PInt 1) = true
  /\ is_float (get_mean_speed demo_walking).
Proof.
  repeat (split; [reflexivity|]).
  apply (proj2 (mean_speed_formula (PInt 9000) (PInt 1) (PInt 75)
                  (PInt 180) (PInt 25) (PInt 40))); reflexivity.
Defined.

Lemma running_calories_witness :
  is_real (PInt 15000) = true /\ is_real (PInt 1) = true
  /\ py_pos (PInt 1) = true /\ is_real (PInt 75) = true
  /\ is_float (get_spent_calories demo_running).
Proof.
  repeat (split; [reflexivity|]).
  apply (proj2 (running_calories_formula (PInt 15000) (PInt 1) (PInt 75)));
    reflexivity.
Defined.


Lemma swimming_calories_witness :
  is_float (get_mean_speed demo_swimming)
  /\ is_real (PInt 80) = true /\ is_real (PInt 1) = true
  /\ is_float (get_spent_calories demo_swimming).
Proof.
  assert (H1 : is_float (get_mean_speed demo_swimming))
    by (eexists; vm_compute; reflexivity).
  split; [exact H1|]. repeat (split; [reflexivity|]).
  apply (proj2 (swimming_calories_formula (PInt 720) (PInt 1) (PInt 80)
                  (PInt 25) (PInt 40))); [exact H1|reflexivity..].
Defined.

Lemma report_line_witness :
  is_finite (PInt 1) = true /\ is_finite (float_lit 9750 3) = true
  /\ is_finite (float_lit 797805 3) = true
  /\ exists s1 s2 s3 s4 : string,
       Fmt.num_f 3 (PInt 1) = Ok s1 /\ Fmt.num_f 3 (float_lit 9750 3) = Ok s2
       /\ Fmt.num_f 3 (float_lit 9750 3) = Ok s3
       /\ Fmt.num_f 3 (float_lit 797805 3) = Ok s4
       /\ Fmt.has_decimals 3 s1 = true /\ Fmt.has_decimals 3 s2 = true
       /\ Fmt.has_decimals 3 s3 = true /\ Fmt.has_decimals 3 s4 = true
       /\ InfoMessage.get_message
            (InfoMessage.init "Running" (PInt 1) (float_lit 9750 3)
               (float_lit 9750 3) (float_lit 797805 3))
          = Str.Done (Ok (Spec.line "Running" s1 s2 s3 s4)).
Proof.
  repeat (split; [reflexivity|]).
  apply (report_line "Running" (PInt 1) (float_lit 9750 3) (float_lit 9750 3)
           (float_lit 797805 3)); reflexivity.
Defined.

Lemma round_trip_bound_witness :
  0 <= 15000 < 2 ^ 53
  /\ close_to (round_trip demo_running) 15000
  /\ close_to (round_trip (SportsWalkingObj (PInt 15000) (PInt 1) (PInt 75) (PInt 180)))
       15000
  /\ close_to (round_trip (SwimmingObj (PInt 15000) (PInt 1) (PInt 75) (PInt 25)
                             (PInt 40))) 15000.
Proof.
  assert (H : 0 <= 15000 < 2 ^ 53) by (split; [discriminate|reflexivity]).
  split; [exact H|].
  exact (round_trip_bound 15000 (PInt 1) (PInt 75) (PInt 180) (PInt 25) (PInt 40) H).
Defined.

Lemma report_label_witness :
  read_package "WLK" [PInt 9000; PInt 1; PInt 75; PInt 180] = Ok demo_walking
  /\ show_training_info demo_walking = Ok demo_walking_info
  /\ InfoMessage.training_type demo_walking_info = "SportsWalking".
Proof.
  assert (H1 : read_package "WLK" [PInt 9000; PInt 1; PInt 75; PInt 180]
               = Ok demo_walking) by (vm_compute; reflexivity).
  assert (H2 : show_training_info demo_walking = Ok demo_walking_info)
    by (vm_compute; reflexivity).
  split; [exact H1|]. split; [exact H2|].
  destruct (report_label _ _ _ _ H1 H2) as [_ [[E _]|[[E _]|[_ E]]]];
    [discriminate E|discriminate E|exact E].
Defined.

End Instances.
(** ** The methods as binary64 expressions *)

Section ClosedForms.

Context {libc : libm}.

Import OpFacts.

Ltac constants :=
  repeat match goal with
    | |- context [is_real (PInt (Zpos ?p))] =>
        change (is_real (PInt (Zpos p))) with true
    | |- context [is_real (PFloat ?f)] =>
        change (is_real (PFloat f)) with true
    | |- context [py_is_zero (PInt (Zpos ?p))] =>
        change (py_is_zero (PInt (Zpos p))) with false
    | |- context [to_double (PInt ?z)] =>
        change (to_double (PInt z)) with (F64.of_Z z)
    | |- context [to_double (PFloat ?f)] =>
        change (to_double (PFloat f)) with f
    end.

Ltac eval_step :=
  cbn [mbind result_bind];
  first [ rewrite py_mul_l_eq | rewrite py_mul_r_eq
        | rewrite py_add_l_eq | rewrite py_truediv_l_eq ];
  constants; cbn [mbind result_bind].

(** Get_distance returns the rounded action * LEN_STEP / 1000 when the
    action count is a float or an integer in the binary64 range, and raises
    OverflowError otherwise; it never divides by zero. *)
Lemma distance_eq (t : training) :
  get_distance t
  = if is_real (action t) then
      Ok (PFloat (distance_f64 (to_double (action t)) (step_f64 (__class__ t))))
    else Raise OverflowError.
Proof.
  unfold get_distance, lift2, val, distance_f64, step_f64, Training.M_IN_KM.
  assert (HL : exists L, LEN_STEP (__class__ t) = PFloat L)
    by (destruct t; eexists; reflexivity).
  destruct HL as [L ->]. cbn [to_double].
  eval_step. destruct (is_real (action t)); [|reflexivity].
  eval_step. reflexivity.
Qed.

(** X1. get_distance returns the rounded action * LEN_STEP / 1000 when the
    action count is a float or an integer in the binary64 range, and raises
    OverflowError otherwise; it never divides by zero. *)
Theorem get_distance_outcome (t : training) :
  get_distance t
  = if is_real (action t) then
      Ok (PFloat (distance_f64 (to_double (action t)) (step_f64 (__class__ t))))
    else Raise OverflowError.
Proof.
  unfold get_distance, lift2, val, distance_f64, step_f64, Training.M_IN_KM.
  assert (HL : exists L, LEN_STEP (__class__ t) = PFloat L)
    by (destruct t; eexists; reflexivity).
  destruct HL as [L ->]. cbn [to_double].
  eval_step. destruct (is_real (action t)); [|reflexivity].
  eval_step. reflexivity.
Qed.

(** The inherited get_mean_speed (Running, SportsWalking and the base
    class) raises ZeroDivisionError exactly for a zero duration with a
    convertible action count, OverflowError when the action count or the
    duration is an integer beyond the binary64 range, and otherwise returns
    the rounded quotient, also for a negative duration. *)
Lemma speed_eq (t : training) :
  __class__ t <> Swimming ->
  get_mean_speed t
  = if is_real (action t) then
      if is_real (duration t) then
        if py_is_zero (duration t) then Raise ZeroDivisionError
        else Ok (PFloat (speed_f64 (to_double (action t)) (step_f64 (__class__ t))
                           (to_double (duration t))))
      else Raise OverflowError
    else Raise OverflowError.
Proof.
  intros Hc.
  assert (E : get_mean_speed t = get_distance t /' duration t)
    by (destruct t; [reflexivity..|done]).
  rewrite E, distance_eq. unfold lift2, val, speed_f64.
  destruct (is_real (action t)); [|reflexivity].
  eval_step. reflexivity.
Qed.

(** X2. The inherited get_mean_speed (Running, SportsWalking and the base
    class) raises ZeroDivisionError exactly for a zero duration with a
    convertible action count, OverflowError when the action count or the
    duration is an integer beyond the binary64 range, and otherwise returns
    the rounded quotient, also for a negative duration. *)
Theorem get_mean_speed_outcome (t : training) :
  __class__ t <> Swimming ->
  get_mean_speed t
  = if is_real (action t) then
      if is_real (duration t) then
        if py_is_zero (duration t) then Raise ZeroDivisionError
        else Ok (PFloat (speed_f64 (to_double (action t)) (step_f64 (__class__ t))
                           (to_double (duration t))))
      else Raise OverflowError
    else Raise OverflowError.
Proof.
  intros Hc.
  assert (E : get_mean_speed t = get_distance t /' duration t)
    by (destruct t; [reflexivity..|done]).
  rewrite E, distance_eq. unfold lift2, val, speed_f64.
  destruct (is_real (action t)); [|reflexivity].
  eval_step. reflexivity.
Qed.

(** Running.get_spent_calories as one binary64 expression: it fails
    with the error of the mean speed, else with OverflowError for a weight
    beyond the binary64 range, and otherwise returns a float (possibly an
    infinity: products that overflow do not raise). *)
Lemma running_eq (a d w : num) :
  get_spent_calories (RunningObj a d w)
  = match get_mean_speed (RunningObj a d w) with
    | Ok speed =>
        if is_real w then
          Ok (PFloat (running_calories_f64 (to_double speed) (to_double w)
                        (to_double d)))
        else Raise OverflowError
    | Raise e => Raise e
    end.
Proof.
  cbn [get_spent_calories].
  rewrite speed_eq by done. cbn [action duration __class__].
  unfold lift2, val, running_calories_f64,
    Running.CALORIES_MEAN_SPEED_MULTIPLIER, Running.CALORIES_MEAN_SPEED_SHIFT,
    Training.M_IN_KM, Training.HOURS_IN_MINUTES, float_lit, int_lit.
  destruct (is_real a); [|reflexivity].
  destruct (is_real d) eqn:Hd; [|reflexivity].
  destruct (py_is_zero d); [reflexivity|].
  cbn [to_double]. repeat eval_step.
  destruct (is_real w); [|reflexivity].
  repeat eval_step. rewrite Hd. repeat eval_step. reflexivity.
Qed.

(** X3. Running.get_spent_calories as one binary64 expression: it fails
    with the error of the mean speed, else with OverflowError for a weight
    beyond the binary64 range, and otherwise returns a float (possibly an
    infinity: products that overflow do not raise). *)
Theorem running_calories_outcome (a d w : num) :
  get_spent_calories (RunningObj a d w)
  = match get_mean_speed (RunningObj a d w) with
    | Ok speed =>
        if is_real w then
          Ok (PFloat (running_calories_f64 (to_double speed) (to_double w)
                        (to_double d)))
        else Raise OverflowError
    | Raise e => Raise e
    end.
Proof.
  cbn [get_spent_calories].
  rewrite speed_eq by done. cbn [action duration __class__].
  unfold lift2, val, running_calories_f64,
    Running.CALORIES_MEAN_SPEED_MULTIPLIER, Running.CALORIES_MEAN_SPEED_SHIFT,
    Training.M_IN_KM, Training.HOURS_IN_MINUTES, float_lit, int_lit.
  destruct (is_real a); [|reflexivity].
  destruct (is_real d) eqn:Hd; [|reflexivity].
  destruct (py_is_zero d); [reflexivity|].
  cbn [to_double]. repeat eval_step.
  destruct (is_real w); [|reflexivity].
  repeat eval_step. rewrite Hd. repeat eval_step. reflexivity.
Qed.

(** A Swimming speed that is returned is a float, and the duration it was
    divided by is a non-zero number. *)
Lemma swimming_speed_Ok (a d w l c speed : num) :
  get_mean_speed (SwimmingObj a d w l c) = Ok speed ->
  (exists s, speed = PFloat s) /\ is_real d = true /\ py_is_zero d = false.
Proof.
  cbn [get_mean_speed].
  intros (q & y & Hq & [= <-] & Hdiv)%lift2_Ok.
  apply lift2_Ok in Hq as (p & k & _ & _ & Hq).
  apply py_truediv_float in Hq as [fq ->].
  split; [by eapply py_truediv_float|].
  rewrite py_truediv_l_eq in Hdiv.
  destruct (is_real d); [|discriminate]. by destruct (py_is_zero d).
Qed.

(** Swimming.get_spent_calories fails with the error of the mean speed,
    else with OverflowError for a weight beyond the binary64 range, and
    otherwise returns the float (speed + 1.1) * 2 * weight * duration. *)
Lemma swimming_eq (a d w l c : num) :
  get_spent_calories (SwimmingObj a d w l c)
  = match get_mean_speed (SwimmingObj a d w l c) with
    | Ok speed =>
        if is_real w then
          Ok (PFloat (swimming_calories_f64 (to_double speed) (to_double w)
                        (to_double d)))
        else Raise OverflowError
    | Raise e => Raise e
    end.
Proof.
  cbn [get_spent_calories].
  destruct (get_mean_speed (SwimmingObj a d w l c)) as [speed|e] eqn:Hs;
    [|reflexivity].
  apply swimming_speed_Ok in Hs as ([s ->] & Hd & _).
  unfold lift2, val, swimming_calories_f64, Swimming.MULTIPLIER_CALORIES_3,
    Swimming.MULTIPLIER_CALORIES_4, float_lit, int_lit.
  cbn [to_double]. repeat eval_step.
  destruct (is_real w); [|reflexivity].
  repeat eval_step. rewrite Hd. reflexivity.
Qed.

(** X4. Swimming.get_spent_calories fails with the error of the mean speed,
    else with OverflowError for a weight beyond the binary64 range, and
    otherwise returns the float (speed + 1.1) * 2 * weight * duration. *)
Theorem swimming_calories_outcome (a d w l c : num) :
  get_spent_calories (SwimmingObj a d w l c)
  = match get_mean_speed (SwimmingObj a d w l c) with
    | Ok speed =>
        if is_real w then
          Ok (PFloat (swimming_calories_f64 (to_double speed) (to_double w)
                        (to_double d)))
        else Raise OverflowError
    | Raise e => Raise e
    end.
Proof.
  cbn [get_spent_calories].
  destruct (get_mean_speed (SwimmingObj a d w l c)) as [speed|e] eqn:Hs;
    [|reflexivity].
  apply swimming_speed_Ok in Hs as ([s ->] & Hd & _).
  unfold lift2, val, swimming_calories_f64, Swimming.MULTIPLIER_CALORIES_3,
    Swimming.MULTIPLIER_CALORIES_4, float_lit, int_lit.
  cbn [to_double]. repeat eval_step.
  destruct (is_real w); [|reflexivity].
  repeat eval_step. rewrite Hd. reflexivity.
Qed.

End ClosedForms.

(** ** Edge cases of the calorie formulas *)

Section Edges.

Context {libc : libm}.

Import OpFacts.

Lemma zero_over_hundred (h : num) :
  py_is_zero h = true ->
  exists z, py_truediv h (int_lit 100) = Ok (PFloat z) /\ F64.is_zero z = true.
Proof.
  destruct h as [k|f]; cbn [py_is_zero].
  - intros ->%Z.eqb_eq. eexists. split; [vm_compute; reflexivity|reflexivity].
  - intros Hf. destruct f as [s| | |]; try discriminate.
    exists (S754_zero s). split; [|reflexivity]. by destruct s.
Qed.

(** X5. The height is not validated: with a zero height (0, 0.0 or -0.0)
    SportsWalking.get_spent_calories raises ZeroDivisionError as soon as the
    weight converts and the squared speed was computed. *)
Theorem walking_zero_height (a d w h : num) :
  is_real w = true ->
  is_float (pow2 (get_mean_speed (SportsWalkingObj a d w h) *' float_lit 278 3)) ->
  py_is_zero h = true ->
  get_spent_calories (SportsWalkingObj a d w h) = Raise ZeroDivisionError.
Proof.
  intros Hw [sq Hsq] Hh.
  destruct (zero_over_hundred h Hh) as (z & Hz & Zz).
  assert (E1 : val (float_lit 35 3) *' val w
               = Ok (PFloat (F64.mul (F64.lit 35 3) (to_double w)))).
  { unfold lift2, val, float_lit. cbn [mbind result_bind].
    by rewrite py_mul_l_eq, Hw. }
  assert (E2 : pow2 (get_mean_speed (SportsWalkingObj a d w h) *' float_lit 278 3)
               /' (val h /' val (int_lit 100))
               = Raise ZeroDivisionError).
  { rewrite Hsq. unfold lift2, val. cbn [mbind result_bind].
    rewrite Hz. cbn [mbind result_bind].
    rewrite py_truediv_l_eq. cbn [is_real as_double returns py_is_zero].
    by rewrite Zz. }
  cbn [get_spent_calories].
  unfold SportsWalking.MULTIPLIER_CALORIES_1, SportsWalking.KMHOUR_IN_MSECOND,
    SportsWalking.SM_IN_MTR.
  rewrite E1, E2. reflexivity.
Qed.

End Edges.

(** ** Rendering any report *)

Section Rendering.

Import OpFacts.
Local Open Scope string_scope.

Lemma num_f_cases (p : nat) (x : num) :
  Fmt.num_f p x
  = if is_real x then Ok (Fmt.float_f p (to_double x)) else Raise OverflowError.
Proof.
  unfold Fmt.num_f. rewrite as_double_cases. by destruct (is_real x).
Qed.

(** The default template applied to any four numbers: the fields are
    rendered from left to right and the first failure is the outcome. *)
Lemma get_message_eq (name : string) (duration distance speed calories : num) :
  InfoMessage.get_message
    (InfoMessage.init name duration distance speed calories)
  = match Fmt.num_f 3 duration with
    | Raise e => Str.Done (Raise e)
    | Ok s1 =>
        match Fmt.num_f 3 distance with
        | Raise e => Str.Done (Raise e)
        | Ok s2 =>
            match Fmt.num_f 3 speed with
            | Raise e => Str.Done (Raise e)
            | Ok s3 =>
                match Fmt.num_f 3 calories with
                | Raise e => Str.Done (Raise e)
                | Ok s4 => Str.Done (Ok (Spec.line name s1 s2 s3 s4))
                end
            end
        end
    end.
Proof.
  unfold InfoMessage.get_message, Str.format.
  set (kw := InfoMessage.asdict _).
  assert (K0 : Str.field kw "training_type" "" = Str.Done (Ok name)).
  { rewrite (field_lookup kw _ _ (VStr name)); [reflexivity..|]. by vm_compute. }
  assert (K1 : Str.field kw "duration" ".3f" = Str.Done (Fmt.num_f 3 duration)).
  { rewrite (field_lookup kw _ _ (VNum duration)); [|reflexivity|by vm_compute].
    reflexivity. }
  assert (K2 : Str.field kw "distance" ".3f" = Str.Done (Fmt.num_f 3 distance)).
  { rewrite (field_lookup kw _ _ (VNum distance)); [|reflexivity|by vm_compute].
    reflexivity. }
  assert (K3 : Str.field kw "speed" ".3f" = Str.Done (Fmt.num_f 3 speed)).
  { rewrite (field_lookup kw _ _ (VNum speed)); [|reflexivity|by vm_compute].
    reflexivity. }
  assert (K4 : Str.field kw "calories" ".3f" = Str.Done (Fmt.num_f 3 calories)).
  { rewrite (field_lookup kw _ _ (VNum calories)); [|reflexivity|by vm_compute].
    reflexivity. }
  clearbody kw.
  cbv -[Str.field Fmt.num_f Str.bind Spec.line].
  rewrite K0. cbn [Str.bind]. rewrite K1.
  destruct (Fmt.num_f 3 duration) as [s1|e]; [|reflexivity]. cbn [Str.bind].
  rewrite K2.
  destruct (Fmt.num_f 3 distance) as [s2|e]; [|reflexivity]. cbn [Str.bind].
  rewrite K3.
  destruct (Fmt.num_f 3 speed) as [s3|e]; [|reflexivity]. cbn [Str.bind].
  rewrite K4.
  destruct (Fmt.num_f 3 calories) as [s4|e]; [|reflexivity]. cbn [Str.bind].
  reflexivity.
Qed.

(** Get_message on the default template never fails on the template
    itself: it returns the line when the four numeric fields are floats
    (infinities and NaN included) or integers in the binary64 range, and
    raises OverflowError when one of them is a larger integer. *)
Lemma message_eq (name : string) (duration distance speed calories : num) :
  InfoMessage.get_message
    (InfoMessage.init name duration distance speed calories)
  = if is_real duration && is_real distance && is_real speed && is_real calories
    then Str.Done (Ok (Spec.line name
                         (Fmt.float_f 3 (to_double duration))
                         (Fmt.float_f 3 (to_double distance))
                         (Fmt.float_f 3 (to_double speed))
                         (Fmt.float_f 3 (to_double calories))))
    else Str.Done (Raise OverflowError).
Proof.
  rewrite get_message_eq, !num_f_cases.
  destruct (is_real duration); [|reflexivity].
  destruct (is_real distance); [|reflexivity].
  destruct (is_real speed); [|reflexivity].
  by destruct (is_real calories).
Qed.

(** X8. get_message on the default template never fails on the template
    itself: it returns the line when the four numeric fields are floats
    (infinities and NaN included) or integers in the binary64 range, and
    raises OverflowError when one of them is a larger integer. *)
Theorem get_message_outcome (name : string) (duration distance speed calories : num) :
  InfoMessage.get_message
    (InfoMessage.init name duration distance speed calories)
  = if is_real duration && is_real distance && is_real speed && is_real calories
    then Str.Done (Ok (Spec.line name
                         (Fmt.float_f 3 (to_double duration))
                         (Fmt.float_f 3 (to_double distance))
                         (Fmt.float_f 3 (to_double speed))
                         (Fmt.float_f 3 (to_double calories))))
    else Str.Done (Raise OverflowError).
Proof.
  rewrite get_message_eq, !num_f_cases.
  destruct (is_real duration); [|reflexivity].
  destruct (is_real distance); [|reflexivity].
  destruct (is_real speed); [|reflexivity].
  by destruct (is_real calories).
Qed.

End Rendering.

(** ** From a session to its printed line *)

Section Composition.

Context {libc : libm}.

Import OpFacts.
Local Open Scope string_scope.

Lemma pow2_returns (a : result num) : returns (pow2 a) = true -> returns a = true.
Proof. by destruct a. Qed.

Lemma py_mul_l_float (x : spec_float) (y v : num) :
  py_mul (PFloat x) y = Ok v -> exists f, v = PFloat f.
Proof.
  rewrite py_mul_l_eq. destruct (is_real y); [|discriminate].
  intros [= <-]. eauto.
Qed.

Lemma py_add_l_float (x : spec_float) (y v : num) :
  py_add (PFloat x) y = Ok v -> exists f, v = PFloat f.
Proof.
  rewrite py_add_l_eq. destruct (is_real y); [|discriminate].
  intros [= <-]. eauto.
Qed.

(** The calories need the mean speed. *)
Lemma calories_need_speed (t : training) :
  returns (get_spent_calories t) = true -> returns (get_mean_speed t) = true.
Proof.
  destruct t as [a d w|a d w|a d w h|a d w l c]; cbn [get_spent_calories].
  - discriminate.
  - intros H. do 4 apply lift2_returns_l in H.
    apply lift2_returns_l in H. by apply lift2_returns_r in H.
  - intros H. apply lift2_returns_l, lift2_returns_r in H.
    do 3 apply lift2_returns_l in H.
    by apply pow2_returns, lift2_returns_l in H.
  - intros H. by do 4 apply lift2_returns_l in H.
Qed.

(** A mean speed that is returned is a float, and the duration converts. *)
Lemma speed_Ok (t : training) (speed : num) :
  get_mean_speed t = Ok speed ->
  (exists s, speed = PFloat s) /\ is_real (duration t) = true.
Proof.
  destruct t as [a d w|a d w|a d w h|a d w l c];
    try (rewrite speed_eq by done;
         cbn [action duration];
         destruct (is_real a); [|discriminate];
         destruct (is_real d); [|discriminate];
         destruct (py_is_zero d); [discriminate|];
         intros [= <-]; eauto).
  intros (? & ? & _)%swimming_speed_Ok. auto.
Qed.

(** Calories that are returned are a float. *)
Lemma calories_float (t : training) (v : num) :
  get_spent_calories t = Ok v -> exists f, v = PFloat f.
Proof.
  destruct t as [a d w|a d w|a d w h|a d w l c].
  - discriminate.
  - rewrite running_eq.
    destruct (get_mean_speed _); [|discriminate].
    destruct (is_real w); [|discriminate]. intros [= <-]. eauto.
  - cbn [get_spent_calories].
    intros (x & y & Hx & _ & Hm)%lift2_Ok.
    apply lift2_Ok in Hx as (t1 & b & Ht1 & _ & Ha).
    apply lift2_Ok in Ht1 as (c1 & w' & [= <-] & _ & Ht1).
    apply py_mul_l_float in Ht1 as [f1 ->].
    apply py_add_l_float in Ha as [fx ->].
    by eapply py_mul_l_float.
  - rewrite swimming_eq.
    destruct (get_mean_speed _); [|discriminate].
    destruct (is_real w); [|discriminate]. intros [= <-]. eauto.
Qed.

(** X7. A report is produced exactly when the action count converts and
    the calories are returned.  For Swimming the first condition is a real
    one: speed and calories ignore the action count, the distance of the
    report does not. *)
Theorem report_returns (t : training) :
  returns (show_training_info t)
  = is_real (action t) && returns (get_spent_calories t).
Proof.
  unfold show_training_info. rewrite distance_eq.
  destruct (is_real (action t)); [|reflexivity]. cbn [mbind result_bind andb].
  pose proof (calories_need_speed t) as Hs.
  destruct (get_mean_speed t); cbn [mbind result_bind].
  - by destruct (get_spent_calories t).
  - destruct (get_spent_calories t); [|reflexivity]. by specialize (Hs eq_refl).
Qed.

(** X9. Whenever show_training_info returns a report, main prints it:
    rendering a report that a session produced never fails, and the line
    carries the class name and the four numbers of the report. *)
Theorem main_prints (t : training) (info : InfoMessage.t) :
  show_training_info t = Ok info ->
  main t
  = Str.Done (Ok (Spec.line (__name__ (__class__ t))
                    (Fmt.float_f 3 (to_double (duration t)))
                    (Fmt.float_f 3 (to_double (InfoMessage.distance info)))
                    (Fmt.float_f 3 (to_double (InfoMessage.speed info)))
                    (Fmt.float_f 3 (to_double (InfoMessage.calories info))))).
Proof.
  intros Hi. unfold main. rewrite Hi. revert Hi. unfold show_training_info.
  destruct (get_distance t) as [x|] eqn:Hx; [|discriminate].
  destruct (get_mean_speed t) as [s|] eqn:Hs; [|discriminate].
  destruct (get_spent_calories t) as [c|] eqn:Hc; [|discriminate].
  cbn [mbind result_bind]. intros [= <-].
  apply speed_Ok in Hs as ([fs ->] & Hd).
  apply calories_float in Hc as [fc ->].
  rewrite distance_eq in Hx.
  destruct (is_real (action t)); [|discriminate]. injection Hx as <-.
  rewrite message_eq, Hd. reflexivity.
Qed.

End Composition.

(** ** What can go wrong *)

Section Failures.

Context {libc : libm}.

Import OpFacts.
Local Open Scope string_scope.

Lemma construct_length (c : klass) (data : list num) :
  (returns (construct c data) = true <-> length data = arity c)
  /\ (construct c data = Raise TypeError <-> length data <> arity c).
Proof.
  destruct c; cbn [construct arity];
    destruct data as [|x1 [|x2 [|x3 [|x4 [|x5 [|x6 rest]]]]]];
    cbn [length returns]; split; split; intros H;
    first [discriminate | lia | done].
Qed.

Lemma construct_class (c : klass) (data : list num) (t : training) :
  construct c data = Ok t -> __class__ t = c.
Proof.
  destruct c; cbn [construct];
    destruct data as [|x1 [|x2 [|x3 [|x4 [|x5 [|x6 rest]]]]]];
    try discriminate; by intros [= <-].
Qed.

Lemma read_package_class (workout_type : string) (data : list num) (t : training) :
  read_package workout_type data = Ok t -> __class__ t <> Training.
Proof.
  unfold read_package. rewrite training_types_lookup.
  repeat case_decide; try discriminate;
    intros Hc%construct_class; rewrite Hc; discriminate.
Qed.

Lemma as_double_Raise (x : num) (e : exn) :
  as_double x = Raise e -> e = OverflowError.
Proof.
  rewrite as_double_cases. destruct (is_real x); [discriminate|]. by intros [= <-].
Qed.

Lemma py_mul_Raise (x y : num) (e : exn) : py_mul x y = Raise e -> arith_error e.
Proof.
  unfold py_mul. destruct x, y; try discriminate;
    cbn [mbind result_bind as_double];
    repeat match goal with
      | |- context [int_as_double ?z] =>
          let H := fresh in
          destruct (int_as_double z) eqn:H;
          [|apply (as_double_Raise (PInt z)) in H; subst]
      end; cbn [mbind result_bind]; try discriminate;
    intros [= <-]; by right.
Qed.

Lemma py_add_Raise (x y : num) (e : exn) : py_add x y = Raise e -> arith_error e.
Proof.
  unfold py_add. destruct x, y; try discriminate;
    cbn [mbind result_bind as_double];
    repeat match goal with
      | |- context [int_as_double ?z] =>
          let H := fresh in
          destruct (int_as_double z) eqn:H;
          [|apply (as_double_Raise (PInt z)) in H; subst]
      end; cbn [mbind result_bind]; try discriminate;
    intros [= <-]; by right.
Qed.

Lemma py_truediv_Raise (x y : num) (e : exn) :
  py_truediv x y = Raise e -> arith_error e.
Proof.
  unfold py_truediv. destruct x as [a|f], y as [b|g];
    cbn [mbind result_bind as_double];
    repeat match goal with
      | |- context [int_as_double ?z] =>
          let H := fresh in
          destruct (int_as_double z) eqn:H;
          [|apply (as_double_Raise (PInt z)) in H; subst]
      end; cbn [mbind result_bind];
    repeat match goal with
      | |- context [if ?c then _ else _] => destruct c
      end; try discriminate; intros [= <-]; (by left) || (by right).
Qed.

Lemma py_pow2_Raise (x : num) (e : exn) : py_pow2 x = Raise e -> arith_error e.
Proof.
  destruct x as [a|f]; cbn [py_pow2]; [discriminate|].
  destruct f; cbn [float_pow2 mbind result_bind]; try discriminate.
  destruct (SFeqb _ _); cbn [mbind result_bind]; [discriminate|].
  destruct (F64.is_inf _); cbn [mbind result_bind]; [|discriminate].
  intros [= <-]. by right.
Qed.

Lemma lift2_Raise (op : num -> num -> result num) (a b : result num) (e : exn) :
  (forall x y, op x y = Raise e -> arith_error e) ->
  (a = Raise e -> arith_error e) -> (b = Raise e -> arith_error e) ->
  lift2 op a b = Raise e -> arith_error e.
Proof.
  intros Hop Ha Hb. unfold lift2.
  destruct a as [x|ea]; cbn [mbind result_bind]; [|exact Ha].
  destruct b as [y|eb]; cbn [mbind result_bind]; [apply Hop|exact Hb].
Qed.

Lemma pow2_Raise (a : result num) (e : exn) :
  (a = Raise e -> arith_error e) -> pow2 a = Raise e -> arith_error e.
Proof.
  intros Ha. unfold pow2.
  destruct a as [x|]; cbn [mbind result_bind]; [apply py_pow2_Raise|exact Ha].
Qed.

Lemma val_Raise (x : num) (e : exn) : val x = Raise e -> arith_error e.
Proof. discriminate. Qed.

Ltac classify :=
  repeat first
    [ apply val_Raise
    | apply lift2_Raise;
      [intros ? ?;
       first [apply py_mul_Raise | apply py_add_Raise | apply py_truediv_Raise]
      | | ]
    | apply pow2_Raise ].

Lemma get_distance_Raise (t : training) (e : exn) :
  get_distance t = Raise e -> arith_error e.
Proof. unfold get_distance. classify. Qed.

Lemma get_mean_speed_Raise (t : training) (e : exn) :
  get_mean_speed t = Raise e -> arith_error e.
Proof.
  destruct t; cbn [get_mean_speed]; classify; apply get_distance_Raise.
Qed.

Lemma get_spent_calories_Raise (t : training) (e : exn) :
  __class__ t <> Training -> get_spent_calories t = Raise e -> arith_error e.
Proof.
  intros Hc; destruct t; [done|..]; cbn [get_spent_calories]; classify;
    apply get_mean_speed_Raise.
Qed.

Lemma show_training_info_Raise (t : training) (e : exn) :
  __class__ t <> Training -> show_training_info t = Raise e -> arith_error e.
Proof.
  intros Hc. unfold show_training_info.
  destruct (get_distance t) eqn:Hd; [|intros [= <-]; by eapply get_distance_Raise].
  destruct (get_mean_speed t) eqn:Hs;
    [|intros [= <-]; by eapply get_mean_speed_Raise].
  destruct (get_spent_calories t) eqn:Hk; [discriminate|].
  intros [= <-]. by eapply get_spent_calories_Raise.
Qed.

End Failures.

(** ** read_package, main and the script *)

Section Script.

Context {libc : libm}.

Import OpFacts.
Local Open Scope string_scope.

Lemma read_package_lookup (workout_type : string) (data : list num) (c : klass) :
  training_types !! workout_type = Some c ->
  read_package workout_type data = construct c data.
Proof. unfold read_package. by intros ->. Qed.

Lemma read_package_errors (workout_type : string) (data : list num) (e : exn) :
  read_package workout_type data = Raise e -> e = ValueError \/ e = TypeError.
Proof.
  unfold read_package. destruct (training_types !! workout_type) as [c|].
  - destruct c; cbn [construct];
      destruct data as [|x1 [|x2 [|x3 [|x4 [|x5 [|x6 rest]]]]]];
      try discriminate; intros [= <-]; by right.
  - intros [= <-]. by left.
Qed.

Lemma main_done (t : training) : exists r, main t = Str.Done r.
Proof.
  unfold main. destruct (show_training_info t) as [info|e] eqn:Hi; [|eauto].
  unfold show_training_info in Hi.
  destruct (get_distance t) as [x|] eqn:Hx; [|discriminate].
  destruct (get_mean_speed t) as [s|] eqn:Hs; [|discriminate].
  destruct (get_spent_calories t) as [c|] eqn:Hc; [|discriminate].
  cbn [mbind result_bind] in Hi. injection Hi as <-.
  rewrite get_message_eq, !num_f_cases.
  repeat match goal with |- context [if ?c then _ else _] => destruct c end;
    eauto.
Qed.

Lemma main_Raise (t : training) (e : exn) :
  __class__ t <> Training -> main t = Str.Done (Raise e) -> arith_error e.
Proof.
  intros Hc. unfold main.
  destruct (show_training_info t) as [info|e'] eqn:Hi.
  - unfold show_training_info in Hi.
    destruct (get_distance t) as [x|] eqn:Hx; [|discriminate].
    destruct (get_mean_speed t) as [s|] eqn:Hs; [|discriminate].
    destruct (get_spent_calories t) as [c|] eqn:Hk; [|discriminate].
    cbn [mbind result_bind] in Hi. injection Hi as <-.
    rewrite get_message_eq, !num_f_cases.
    repeat match goal with |- context [if ?c then _ else _] => destruct c end;
      try discriminate; intros [= <-]; by right.
  - intros [= <-]. by eapply show_training_info_Raise.
Qed.

(** X10. For the three codes read_package raises TypeError exactly when the
    list does not have 5 (SWM), 3 (RUN) or 4 (WLK) elements and returns a
    session otherwise; it raises nothing but ValueError and TypeError and
    never inspects the elements. *)
Theorem read_package_arity (workout_type : string) (data : list num) :
  (forall c : klass,
     training_types !! workout_type = Some c ->
     (read_package workout_type data = Raise TypeError
      <-> length data <> arity c)
     /\ (returns (read_package workout_type data) = true
         <-> length data = arity c))
  /\ training_types !! "SWM" = Some Swimming
  /\ training_types !! "RUN" = Some Running
  /\ training_types !! "WLK" = Some SportsWalking
  /\ (forall e : exn,
        read_package workout_type data = Raise e ->
        e = ValueError \/ e = TypeError).
Proof.
  split; [|repeat split; try (by vm_compute); apply read_package_errors].
  intros c Hc. rewrite (read_package_lookup _ _ _ Hc).
  destruct (construct_length c data) as [H1 H2]. by split.
Qed.

(** X11. A session built by read_package never makes main fail with
    anything but ZeroDivisionError or OverflowError: NotImplementedError of
    the base class is out of reach, and the template never fails. *)
Theorem main_failures (workout_type : string) (data : list num) (t : training) :
  read_package workout_type data = Ok t ->
  (exists r, main t = Str.Done r)
  /\ (forall e : exn, main t = Str.Done (Raise e) -> arith_error e).
Proof.
  intros Hr%read_package_class. split; [apply main_done|].
  intros e. by apply main_Raise.
Qed.

(** X6. The base class cannot be reported: get_spent_calories raises
    NotImplementedError, so show_training_info never returns; it raises
    NotImplementedError itself once distance and speed were computed. *)
Theorem base_class_no_report (a d w : num) :
  get_spent_calories (TrainingObj a d w) = Raise NotImplementedError
  /\ returns (show_training_info (TrainingObj a d w)) = false
  /\ (is_real a = true -> is_real d = true -> py_is_zero d = false ->
      show_training_info (TrainingObj a d w) = Raise NotImplementedError).
Proof.
  split; [reflexivity|]. split.
  - unfold show_training_info.
    destruct (get_distance _); [|reflexivity].
    by destruct (get_mean_speed _).
  - intros Ha Hd Hz. unfold show_training_info.
    rewrite (speed_eq (TrainingObj a d w)) by done.
    rewrite distance_eq. cbn [action duration].
    by rewrite Ha, Hd, Hz.
Qed.

Lemma script_cons (workout_type : string) (data : list num)
    (rest : list (string * list num)) (t : training) (line : string) :
  read_package workout_type data = Ok t -> main t = Str.Done (Ok line) ->
  script ((workout_type, data) :: rest)
  = (line :: fst (script rest), snd (script rest)).
Proof.
  intros Hr Hm. cbn [script]. rewrite Hr, Hm. by destruct (script rest).
Qed.

(** One turn of the loop on the first package, then the rest. *)
Lemma script_turn (pkg : string * list num) (rest : list (string * list num)) :
  script (pkg :: rest)
  = match turn pkg with
    | Str.Done (Ok line) => (line :: fst (script rest), snd (script rest))
    | Str.Done (Raise e) => ([], Aborted e)
    | Str.Unsupported => ([], Outside)
    end.
Proof.
  destruct pkg as [w data]. unfold turn. cbn [script fst snd].
  destruct (read_package w data) as [t|e0]; [|reflexivity].
  destruct (main t) as [[line|e1]|]; try reflexivity.
  by destruct (script rest).
Qed.

Lemma turn_done (pkg : string * list num) : exists r, turn pkg = Str.Done r.
Proof.
  unfold turn. destruct (read_package _ _) as [t|e]; [apply main_done|eauto].
Qed.

Lemma turn_Raise (pkg : string * list num) (e : exn) :
  turn pkg = Str.Done (Raise e) ->
  e = ValueError \/ e = TypeError \/ arith_error e.
Proof.
  unfold turn. destruct (read_package _ _) as [t|e0] eqn:Hr.
  - intros Hm. right; right.
    eapply main_Raise; [by eapply read_package_class|exact Hm].
  - intros [= <-]. apply read_package_errors in Hr. tauto.
Qed.

Lemma script_finished (pkgs : list (string * list num)) (lines : list string) :
  script pkgs = (lines, Finished) <-> printed pkgs lines.
Proof.
  unfold printed. revert lines.
  induction pkgs as [|pkg rest IH]; intros lines.
  - cbn [script]. split.
    + intros [= <-]. constructor.
    + intros H. inversion H. reflexivity.
  - rewrite script_turn. destruct (turn pkg) as [[line|e]|] eqn:Ht.
    + destruct (script rest) as [out r]. cbn [fst snd]. split.
      * intros [= <- ->]. constructor; [exact Ht|]. by apply IH.
      * intros H. inversion H as [|? l ? ls Hl Hls]; subst.
        rewrite Ht in Hl. injection Hl as <-.
        apply IH in Hls. by injection Hls as <- <-.
    + split; [discriminate|].
      intros H. inversion H as [|? l ? ls Hl Hls]; subst. congruence.
    + split; [discriminate|].
      intros H. inversion H as [|? l ? ls Hl Hls]; subst. congruence.
Qed.

Lemma script_aborted (pkgs : list (string * list num)) (lines : list string)
    (e : exn) :
  script pkgs = (lines, Aborted e)
  <-> exists before pkg after,
        pkgs = (before ++ pkg :: after)%list
        /\ printed before lines
        /\ turn pkg = Str.Done (Raise e).
Proof.
  unfold printed. split.
  - revert lines. induction pkgs as [|pkg rest IH]; intros lines.
    + discriminate.
    + rewrite script_turn. destruct (turn pkg) as [[line|e0]|] eqn:Ht.
      * destruct (script rest) as [out r]. cbn [fst snd].
        intros [= <- ->].
        destruct (IH out eq_refl) as (before & p & after & -> & Hb & Hp).
        exists (pkg :: before), p, after.
        split; [reflexivity|]. split; [by constructor|exact Hp].
      * intros [= <- <-]. exists [], pkg, rest.
        split; [reflexivity|]. split; [constructor|exact Ht].
      * discriminate.
  - intros (before & pkg & after & -> & Hb & Hp).
    induction Hb as [|p line before lines Hl Hb IH].
    + cbn [app]. rewrite script_turn, Hp. reflexivity.
    + cbn [app]. rewrite script_turn, Hl, IH. reflexivity.
Qed.

(** X12. The script stops at the first package that fails, and the lines
    of the packages before it stay printed: a run ends with an exception e
    and the lines [lines] exactly when the list splits into packages that
    all print, with [lines] as their lines in order, a package whose turn
    raises e, and any packages after it, which are never read.  A run
    finishes exactly when every package prints, with one line per package
    in order.  The exception is ValueError, TypeError, ZeroDivisionError or
    OverflowError, and the template never leaves the formatted fragment. *)
Theorem script_outcome (pkgs : list (string * list num)) :
  (length (fst (script pkgs)) <= length pkgs)%nat
  /\ (snd (script pkgs) = Finished
      <-> length (fst (script pkgs)) = length pkgs)
  /\ snd (script pkgs) <> Outside
  /\ (forall e : exn,
        snd (script pkgs) = Aborted e ->
        e = ValueError \/ e = TypeError \/ arith_error e)
  /\ (forall lines : list string,
        script pkgs = (lines, Finished) <-> printed pkgs lines)
  /\ (forall (lines : list string) (e : exn),
        script pkgs = (lines, Aborted e)
        <-> exists before pkg after,
              pkgs = (before ++ pkg :: after)%list
              /\ printed before lines
              /\ turn pkg = Str.Done (Raise e)).
Proof.
  assert (H14 : (length (fst (script pkgs)) <= length pkgs)%nat
    /\ (snd (script pkgs) = Finished
        <-> length (fst (script pkgs)) = length pkgs)
    /\ snd (script pkgs) <> Outside
    /\ (forall e : exn,
          snd (script pkgs) = Aborted e ->
          e = ValueError \/ e = TypeError \/ arith_error e)).
  { induction pkgs as [|pkg rest (IH1 & IH2 & IH3 & IH4)].
    - cbn. repeat split; try done.
    - rewrite script_turn.
      destruct (turn_done pkg) as [[line|e0] Ht]; rewrite Ht.
      + cbn [fst snd length]. repeat split; try done; try lia.
        * intros H. apply IH2 in H. lia.
        * intros H. apply IH2. lia.
      + cbn [fst snd length]. repeat split; try done; try lia.
        intros e [= <-]. by apply (turn_Raise pkg). }
  destruct H14 as (H1 & H2 & H3 & H4).
  repeat (split; [assumption|]).
  split; [intros lines; apply script_finished|].
  intros lines e. apply script_aborted.
Qed.

(** X13. Packages are independent: a run over two lists is the run over the
    first followed, if it finished, by the run over the second. *)
Theorem script_app (p q : list (string * list num)) :
  script (p ++ q)%list
  = match snd (script p) with
    | Finished => ((fst (script p) ++ fst (script q))%list, snd (script q))
    | _ => script p
    end.
Proof.
  induction p as [|[w data] rest IH].
  - cbn. by destruct (script q).
  - cbn [script app].
    destruct (read_package w data) as [t|e0]; [|reflexivity].
    destruct (main t) as [[line|e1]|]; try reflexivity.
    rewrite IH. destruct (script rest) as [out r]. cbn [fst snd].
    destruct r; reflexivity.
Qed.

End Script.

(** ** Signs *)

Section Signs.

Import Round RoundFacts ValueFacts OpFacts.

Lemma shr_1_m_nonneg (x : shr_record) : 0 <= shr_m x -> 0 <= shr_m (shr_1 x).
Proof.
  destruct x as [m r s]. cbn [shr_m]. intros Hm.
  rewrite shr_1_nonneg by done. cbn [shr_m]. apply Z.div_pos; lia.
Qed.

Lemma iter_pos_m_nonneg (p : positive) :
  forall x : shr_record,
    0 <= shr_m x -> 0 <= shr_m (SpecFloat.iter_pos shr_1 p x).
Proof.
  induction p as [p IH|p IH|]; intros x Hx; cbn [SpecFloat.iter_pos].
  - by apply IH, IH, shr_1_m_nonneg.
  - by apply IH, IH.
  - by apply shr_1_m_nonneg.
Qed.

Lemma shr_m_nonneg (x : shr_record) (e n : Z) :
  0 <= shr_m x -> 0 <= shr_m (fst (shr x e n)).
Proof.
  intros Hx. destruct n; cbn [shr fst]; try done. by apply iter_pos_m_nonneg.
Qed.

Lemma round_nonneg (m : Z) (l : location) : 0 <= m -> 0 <= round_nearest_even m l.
Proof.
  intros Hm. destruct l as [|[]]; cbn [round_nearest_even]; try lia.
  destruct (Z.even m); lia.
Qed.

(** Rounding never turns a non-negative significand into NaN and keeps the
    sign it was given. *)
Lemma binary_round_aux_signed (s : bool) (mx ex : Z) (lx : location) :
  0 <= mx -> signed s (binary_round_aux F64.prec F64.emax s mx ex lx).
Proof.
  intros Hmx. unfold binary_round_aux, shr_fexp.
  set (e1 := fexp _ _ _ - ex).
  pose proof (shr_m_nonneg (shr_record_of_loc mx lx) ex e1) as H1.
  rewrite shr_m_of_loc in H1. specialize (H1 Hmx).
  destruct (shr (shr_record_of_loc mx lx) ex e1) as [x1 e'].
  cbn [fst] in H1.
  set (m1 := round_nearest_even (shr_m x1) (loc_of_shr_record x1)).
  assert (Hm1 : 0 <= m1) by by apply round_nonneg.
  set (e2 := fexp _ _ _ - e').
  pose proof (shr_m_nonneg (shr_record_of_loc m1 loc_Exact) e' e2) as H2.
  rewrite shr_m_of_loc in H2. specialize (H2 Hm1).
  destruct (shr (shr_record_of_loc m1 loc_Exact) e' e2) as [x2 e''].
  cbn [fst] in H2.
  destruct (shr_m x2) as [|m|m]; [done| |lia].
  by destruct (e'' <=? F64.emax - F64.prec).
Qed.

Lemma signed_nonneg (f : spec_float) :
  signed false f -> SFleb (S754_zero false) f = true.
Proof. destruct f as [s|s| |s m e]; cbn; try done; by intros ->. Qed.

Lemma nonneg_cases (f : spec_float) :
  SFleb (S754_zero false) f = true ->
  (exists s, f = S754_zero s) \/ signed false f.
Proof.
  destruct f as [s|s| |s m e]; cbn; try discriminate; eauto;
    destruct s; try discriminate; by right.
Qed.

Lemma mul_signed (x : spec_float) (my : positive) (ey : Z) :
  SFleb (S754_zero false) x = true ->
  SFleb (S754_zero false) (F64.mul x (S754_finite false my ey)) = true.
Proof.
  intros [[s ->]|Hx]%nonneg_cases; [reflexivity|].
  destruct x as [s|s| |s m e]; cbn in Hx; try done; subst s; try reflexivity.
  apply signed_nonneg. unfold F64.mul, SFmul. cbn [xorb].
  by apply binary_round_aux_signed.
Qed.

Lemma div_signed (x : spec_float) (my : positive) (ey : Z) :
  SFleb (S754_zero false) x = true ->
  SFleb (S754_zero false) (F64.div x (S754_finite false my ey)) = true.
Proof.
  intros [[s ->]|Hx]%nonneg_cases; [reflexivity|].
  destruct x as [s|s| |s m e]; cbn in Hx; try done; subst s; try reflexivity.
  apply signed_nonneg. unfold F64.div, SFdiv, SFdiv_core_binary. cbn [xorb].
  set (m' := match _ with Z0 => _ | Zpos _ => _ | Zneg _ => _ end).
  assert (Hm' : 0 <= m').
  { subst m'. destruct (_ - _ - _); try lia. apply Z.shiftl_nonneg. lia. }
  assert (Hq : Z.div_eucl m' (Zpos my) = (m' / Zpos my, m' mod Zpos my)).
  { unfold Z.div, Z.modulo. by destruct (Z.div_eucl m' (Zpos my)). }
  rewrite Hq. apply binary_round_aux_signed. apply Z.div_pos; lia.
Qed.

Lemma of_Z_signed (z : Z) : 0 <= z -> signed false (F64.of_Z z).
Proof.
  intros Hz. destruct z as [|p|p]; [done| |lia].
  unfold F64.of_Z, binary_normalize, binary_round.
  destruct (shl_align p 0 _) as [mz ez]. by apply binary_round_aux_signed.
Qed.

Lemma to_double_nonneg (x : num) :
  py_nonneg x = true -> SFleb (S754_zero false) (to_double x) = true.
Proof.
  destruct x as [z|f]; cbn [py_nonneg to_double]; [|done].
  intros Hz%Z.leb_le. by apply signed_nonneg, of_Z_signed.
Qed.

Lemma step_finite (c : klass) :
  exists m e, step_f64 c = S754_finite false m e.
Proof. destruct c; eexists _, _; vm_compute; reflexivity. Qed.

Lemma thousand_finite : exists m e, F64.of_Z 1000 = S754_finite false m e.
Proof. eexists _, _. vm_compute. reflexivity. Qed.

Lemma distance_f64_nonneg (x : spec_float) (c : klass) :
  SFleb (S754_zero false) x = true ->
  SFleb (S754_zero false) (distance_f64 x (step_f64 c)) = true.
Proof.
  intros Hx. unfold distance_f64.
  destruct (step_finite c) as (m & e & ->).
  destruct thousand_finite as (mk & ek & ->).
  by apply div_signed, mul_signed.
Qed.

(** A positive finite number converts to a positive finite float. *)
Lemma to_double_pos (d : num) :
  py_pos d = true -> is_finite d = true ->
  exists m e, to_double d = S754_finite false m e.
Proof.
  unfold is_finite. rewrite as_double_cases.
  destruct (is_real d) eqn:Hr; [|discriminate].
  destruct d as [z|f]; cbn [py_pos to_double].
  - intros Hz%Z.ltb_lt Hf.
    pose proof (of_Z_signed z ltac:(lia)) as Hs.
    pose proof (of_Z_not_zero z ltac:(lia)) as Hn.
    destruct (F64.of_Z z) as [s|s| |s m e]; try done.
    cbn in Hs. subst s. eauto.
  - intros Hp Hf. destruct f as [s|s| |s m e]; try done.
    destruct s; [discriminate|eauto].
Qed.

(** X14. Nothing turns negative on the way: for an action count >= 0 the
    distance is a float >= 0 (never NaN), and so is the inherited mean
    speed for a positive finite duration. *)
Theorem distance_speed_nonneg (t : training) :
  py_nonneg (action t) = true -> is_real (action t) = true ->
  nonneg_val (get_distance t)
  /\ (__class__ t <> Swimming ->
      py_pos (duration t) = true -> is_finite (duration t) = true ->
      nonneg_val (get_mean_speed t)).
Proof.
  intros Hn Hr.
  pose proof (distance_f64_nonneg _ (__class__ t) (to_double_nonneg _ Hn)) as Hd.
  split.
  - eexists. split; [|exact Hd]. by rewrite distance_eq, Hr.
  - intros Hc Hp Hf.
    destruct (to_double_pos _ Hp Hf) as (m & e & Ed).
    assert (Hrd : is_real (duration t) = true).
    { unfold is_finite in Hf. unfold is_real.
      by destruct (as_double (duration t)). }
    assert (Hz : py_is_zero (duration t) = false).
    { rewrite <- to_double_zero, Ed. reflexivity. }
    eexists. split.
    + by rewrite speed_eq, Hr, Hrd, Hz.
    + unfold speed_f64. rewrite Ed. by apply div_signed.
Qed.

End Signs.

(** ** Accuracy *)

Section Accuracy.

Import Round RoundFacts ValueFacts RoundTrip OpFacts.

Lemma step_pnormal (c : klass) : pnormal (step_f64 c) (-53) (-52).
Proof.
  destruct c; eexists _, _; (split; [vm_compute; reflexivity|]);
    unfold normal; cbn; lia.
Qed.

Local Open Scope Q_scope.

(** The binary constant is the decimal of the program text up to one
    rounding. *)
Lemma step_value (c : klass) :
  (1 - u) * step_Q c <= F64.to_Q (step_f64 c)
  /\ F64.to_Q (step_f64 c) <= (1 + u) * step_Q c.
Proof. destruct c; split; vm_compute; discriminate. Qed.

Lemma distance_value (a : Z) (c : klass) :
  (0 < a < 2 ^ 53)%Z ->
  pnormal (distance_f64 (F64.of_Z a) (step_f64 c)) (-63) (-6)
  /\ Qabs (F64.to_Q (distance_f64 (F64.of_Z a) (step_f64 c))
           - inject_Z a * step_Q c * (1 # 1000))
     <= inject_Z a * step_Q c * (1 # 1000) * (1 # 2 ^ 51).
Proof.
  intros Ha. unfold distance_f64.
  destruct (of_Z_value a Ha) as [N0 V0]. destruct thousand as [NK VK].
  pose proof (step_pnormal c) as NL. destruct (step_value c) as [Ll Lu].
  destruct (mul_value _ _ _ _ _ _ N0 NL) as (N1 & B1l & B1u); [lia..|].
  destruct (div_value _ _ _ _ _ _ N1 NK) as (N2 & B2l & B2u); [lia..|].
  split; [exact N2|].
  assert (Hpos : 0 < F64.to_Q (F64.of_Z a)) by (eapply to_Q_pos, N0).
  assert (Hs : 0 < step_Q c) by (by destruct c).
  set (v0 := F64.to_Q (F64.of_Z a)) in *.
  set (vL := F64.to_Q (step_f64 c)) in *. set (sq := step_Q c) in *.
  set (v1 := F64.to_Q (F64.mul (F64.of_Z a) (step_f64 c))) in *.
  set (v2 := F64.to_Q (F64.div _ _)) in *.
  rewrite VK in B2l, B2u. rewrite <- V0.
  assert (P1 : v0 * vL <= v0 * ((1 + u) * sq))
    by (apply Qmult_le_l; assumption).
  assert (P2 : v0 * ((1 - u) * sq) <= v0 * vL)
    by (apply Qmult_le_l; assumption).
  unfold u in *. change (2 ^ 53)%positive with 9007199254740992%positive in *.
  change (2 ^ 51)%positive with 2251799813685248%positive.
  apply Qabs_Qle_condition. split; lra.
Qed.

Lemma speed_value (a k : Z) (c : klass) :
  (0 < a < 2 ^ 53)%Z -> (0 < k < 2 ^ 53)%Z ->
  Qabs (F64.to_Q (speed_f64 (F64.of_Z a) (step_f64 c) (F64.of_Z k))
        - inject_Z a * step_Q c * (1 # 1000) / inject_Z k)
  <= inject_Z a * step_Q c * (1 # 1000) / inject_Z k * (1 # 2 ^ 50).
Proof.
  intros Ha Hk. unfold speed_f64.
  destruct (distance_value a c Ha) as [N2 B2].
  destruct (of_Z_value k Hk) as [Nd Vd].
  destruct (div_value _ _ _ _ _ _ N2 Nd) as (N3 & B3l & B3u); [lia..|].
  apply Qabs_Qle_condition in B2 as [B2l B2u].
  rewrite Vd in B3l, B3u.
  assert (Hik : inject_Z 0 < inject_Z k) by (rewrite <- Zlt_Qlt; lia).
  change (inject_Z 0) with 0 in Hik.
  set (x := inject_Z a * step_Q c * (1 # 1000)) in *.
  set (v2 := F64.to_Q (distance_f64 _ _)) in *.
  set (v3 := F64.to_Q (F64.div _ _)) in *.
  set (ik := inject_Z k) in *.
  assert (E : x / ik * ik == x) by (field; lra).
  set (y := x / ik) in *.
  unfold u in *. change (2 ^ 53)%positive with 9007199254740992%positive in *.
  change (2 ^ 51)%positive with 2251799813685248%positive in *.
  change (2 ^ 50)%positive with 1125899906842624%positive.
  assert (Hu : v3 * ik <= (y + y * (1 # 1125899906842624)) * ik) by lra.
  assert (Hl : (y - y * (1 # 1125899906842624)) * ik <= v3 * ik) by lra.
  apply Qmult_le_r in Hu, Hl; try assumption.
  apply Qabs_Qle_condition. split; lra.
Qed.

(** X15. For an integer action count below 2^53 the distance is within the
    relative distance 2^-51 of action * LEN_STEP / 1000 computed exactly
    with the decimal constant 0.65 or 1.38. *)
Theorem distance_accuracy (t : training) (a : Z) :
  action t = PInt a -> (0 < a < 2 ^ 53)%Z ->
  within (get_distance t)
    (inject_Z a * step_Q (__class__ t) * (1 # 1000)) (1 # 2 ^ 51).
Proof.
  intros Ea Ha. destruct (distance_value a (__class__ t) Ha) as [N2 B2].
  eexists. split; [|exact B2].
  rewrite distance_eq, Ea.
  replace (is_real (PInt a)) with true; [reflexivity|].
  symmetry. unfold is_real, as_double, int_as_double.
  destruct (of_Z_value a Ha) as [N0 _].
  by rewrite (pnormal_not_inf _ _ _ N0).
Qed.

(** X16. For integer action count and duration below 2^53 the inherited
    mean speed is within the relative distance 2^-50 of
    action * LEN_STEP / 1000 / duration computed exactly. *)
Theorem speed_accuracy (t : training) (a k : Z) :
  __class__ t <> Swimming ->
  action t = PInt a -> duration t = PInt k ->
  (0 < a < 2 ^ 53)%Z -> (0 < k < 2 ^ 53)%Z ->
  within (get_mean_speed t)
    (inject_Z a * step_Q (__class__ t) * (1 # 1000) / inject_Z k)
    (1 # 2 ^ 50).
Proof.
  intros Hc Ea Ek Ha Hk.
  eexists. split; [|exact (speed_value a k (__class__ t) Ha Hk)].
  rewrite speed_eq, Ea, Ek by done.
  assert (Hr : forall z, (0 < z < 2 ^ 53)%Z -> is_real (PInt z) = true).
  { intros z Hz. unfold is_real, as_double, int_as_double.
    destruct (of_Z_value z Hz) as [N0 _].
    by rewrite (pnormal_not_inf _ _ _ N0). }
  rewrite !Hr by done.
  replace (py_is_zero (PInt k)) with false; [reflexivity|].
  symmetry. cbn [py_is_zero]. apply Z.eqb_neq. lia.
Qed.

End Accuracy.

(** ** What the three decimals show *)

Section Shown.

Import Fmt FmtFacts.
Local Open Scope string_scope.

Lemma read_uint_acc (d : Decimal.uint) :
  forall acc : positive,
    read_digits (NilEmpty.string_of_uint d) (Zpos acc)
    = Zpos (Pos.of_uint_acc d acc).
Proof.
  induction d; intros acc;
    cbn [NilEmpty.string_of_uint read_digits Pos.of_uint_acc];
    [reflexivity|rewrite <- IHd; f_equal;
                 rewrite ?Pos2Z.inj_add, Pos2Z.inj_mul;
                 match goal with
                 | |- context [Z.of_nat ?x] =>
                     let v := eval vm_compute in (Z.of_nat x) in
                     change (Z.of_nat x) with v
                 end; lia..].
Qed.

Lemma read_uint (d : Decimal.uint) :
  read_digits (NilEmpty.string_of_uint d) 0 = Z.of_N (Pos.of_uint d).
Proof.
  induction d; cbn [NilEmpty.string_of_uint read_digits Pos.of_uint];
    [reflexivity|exact IHd|..]; cbn [Z.of_N]; rewrite <- read_uint_acc;
    reflexivity.
Qed.

Lemma read_natural (k : Z) : 0 <= k -> read_digits (natural k) 0 = k.
Proof.
  intros Hk. unfold natural.
  assert (Hn : NilZero.string_of_uint (N.to_uint (Z.to_N k))
               = NilEmpty.string_of_uint (N.to_uint (Z.to_N k))).
  { destruct (Z.to_N k) as [|p]; [reflexivity|]. cbn [N.to_uint].
    pose proof (DecimalPos.Unsigned.to_uint_nonnil p).
    by destruct (Pos.to_uint p). }
  rewrite Hn, read_uint.
  change (Pos.of_uint (N.to_uint (Z.to_N k)))
    with (N.of_uint (N.to_uint (Z.to_N k))).
  rewrite DecimalN.Unsigned.of_to. lia.
Qed.

Lemma read_digit (d : Z) :
  0 <= d < 10 -> Z.of_nat (nat_of_ascii (digit d)) - 48 = d.
Proof.
  intros Hd.
  assert (Hc : d = 0 \/ d = 1 \/ d = 2 \/ d = 3 \/ d = 4 \/ d = 5 \/ d = 6
               \/ d = 7 \/ d = 8 \/ d = 9) by lia.
  repeat (destruct Hc as [-> | Hc]; [reflexivity|]). subst; reflexivity.
Qed.

Lemma read_fraction (p : nat) (x : Z) :
  forall acc : Z,
    read_digits (digits p x) acc = acc * 10 ^ Z.of_nat p + x mod 10 ^ Z.of_nat p.
Proof.
  induction p as [|p IH]; intros acc; cbn [digits read_digits].
  - rewrite Z.pow_0_r, Z.mod_1_r. lia.
  - rewrite IH, read_digit by (apply Z.mod_pos_bound; lia).
    rewrite Nat2Z.inj_succ, Z.pow_succ_r by lia.
    assert (Hp : 0 < 10 ^ Z.of_nat p) by (apply Z.pow_pos_nonneg; lia).
    rewrite (Z.mul_comm 10 (10 ^ Z.of_nat p)), Z.rem_mul_r by lia.
    ring.
Qed.

Lemma split_fixed (p : nat) (n : Z) (s : bool) :
  split_point (strip_minus (sign s ++ fixed_abs (S p) n))
  = Some (natural (n / 10 ^ Z.of_nat (S p)),
          digits (S p) (n mod 10 ^ Z.of_nat (S p))).
Proof.
  unfold fixed_abs. set (ip := natural _). set (fp := digits _ _).
  assert (Hip : all_digits ip = true) by apply natural_digits.
  assert (Hne : ip <> "") by apply natural_nonempty.
  assert (Hstrip : strip_minus (sign s ++ ip ++ point (S p) ++ fp)
                   = ip ++ String "." fp).
  { destruct s; simpl; [reflexivity|].
    destruct ip as [|c ip']; [congruence|]. simpl in *.
    apply andb_prop in Hip as [Hc _].
    rewrite (digit_not_minus c Hc). reflexivity. }
  by rewrite Hstrip, split_point_digits.
Qed.

Lemma thousandths_fixed (n : Z) (s : bool) :
  0 <= n -> thousandths (sign s ++ fixed_abs 3 n) = Some n.
Proof.
  intros Hn. unfold thousandths. rewrite split_fixed.
  rewrite read_natural by (apply Z.div_pos; lia).
  rewrite read_fraction. f_equal.
  change (10 ^ Z.of_nat 3) with 1000.
  rewrite Z.mod_mod by lia. pose proof (Z.div_mod n 1000). lia.
Qed.

Lemma round_half_even_nearest (a b : Z) :
  0 < b -> 2 * Z.abs (round_half_even a b * b - a) <= b.
Proof.
  intros Hb. unfold round_half_even.
  pose proof (Z.div_mod a b) as Hd. pose proof (Z.mod_pos_bound a b Hb) as Hm.
  destruct (Z.compare_spec (2 * (a mod b)) b); try destruct (Z.even (a / b));
    nia.
Qed.

Lemma round_half_even_nonneg (a b : Z) :
  0 < b -> 0 <= a -> 0 <= round_half_even a b.
Proof.
  intros Hb Ha. unfold round_half_even.
  pose proof (Z.div_pos a b Ha Hb).
  destruct (Z.compare _ _); try destruct (Z.even _); lia.
Qed.

Local Open Scope Q_scope.

Lemma scaled_nearest (m : positive) (e : Z) :
  (0 <= scaled 3 m e)%Z
  /\ Qabs (inject_Z (scaled 3 m e) - 1000 * (inject_Z (Zpos m) * 2 ^ e))
     <= 1 # 2.
Proof.
  unfold scaled. change (10 ^ Z.of_nat 3)%Z with 1000%Z.
  destruct (Z.leb_spec 0 e) as [He|He].
  - split; [assert (0 < 2 ^ e)%Z by (apply Z.pow_pos_nonneg; lia); nia|].
    rewrite !inject_Z_mult, Zpower_Qpower by lia.
    change (inject_Z 2) with 2. change (inject_Z 1000) with 1000.
    assert (E0 : inject_Z (Z.pos m) * 2 ^ e * 1000
                 - 1000 * (inject_Z (Z.pos m) * 2 ^ e) == 0) by ring.
    rewrite E0. discriminate.
  - set (B := (2 ^ (- e))%Z).
    assert (HB : (0 < B)%Z) by (apply Z.pow_pos_nonneg; lia).
    split; [apply round_half_even_nonneg; lia|].
    pose proof (round_half_even_nearest (Zpos m * 1000) B HB) as Hr.
    set (n := round_half_even (Zpos m * 1000) B) in *.
    assert (H1 : (2 * (n * B) <= B + 2 * (Zpos m * 1000))%Z) by lia.
    assert (H2 : (2 * (Zpos m * 1000) <= B + 2 * (n * B))%Z) by lia.
    rewrite Zle_Qle, inject_Z_plus, !inject_Z_mult in H1, H2.
    change (inject_Z 2) with 2 in H1, H2.
    change (inject_Z 1000) with 1000 in H1, H2.
    assert (EB : 2 ^ e * inject_Z B == 1).
    { subst B. rewrite Zpower_Qpower by lia. change (inject_Z 2) with 2.
      rewrite <- Qpower_plus by discriminate.
      replace (e + - e)%Z with 0%Z by lia. reflexivity. }
    assert (HiB : 0 < inject_Z B).
    { change 0 with (inject_Z 0). rewrite <- Zlt_Qlt. lia. }
    set (iB := inject_Z B) in *. set (im := inject_Z (Zpos m)) in *.
    set (i_n := inject_Z n) in *. set (p := 2 ^ e) in *.
    assert (Hu : (i_n - 1000 * (im * p)) * iB <= (1 # 2) * iB).
    { assert (E1 : (i_n - 1000 * (im * p)) * iB
                   == i_n * iB - 1000 * im * (p * iB)) by ring.
      rewrite E1, EB. lra. }
    assert (Hl : (- (1 # 2)) * iB <= (i_n - 1000 * (im * p)) * iB).
    { assert (E1 : (i_n - 1000 * (im * p)) * iB
                   == i_n * iB - 1000 * im * (p * iB)) by ring.
      rewrite E1, EB. lra. }
    apply Qmult_le_r in Hu, Hl; try assumption.
    apply Qabs_Qle_condition. split; assumption.
Qed.

(** X17. The three decimals are the nearest thousandth: the number that the
    code .3f shows for a finite float differs from its magnitude by at most
    0.0005 (in thousandths: by at most one half). *)
Theorem shown_rounding (f : spec_float) :
  F64.is_finite f = true ->
  exists n : Z,
    thousandths (float_f 3 f) = Some n
    /\ Qabs (inject_Z n - 1000 * F64.to_Q (SFabs f)) <= 1 # 2.
Proof.
  destruct f as [s|s| |s m e]; try discriminate; intros _; cbn [float_f SFabs].
  - exists 0%Z. split; [by apply thousandths_fixed|]. discriminate.
  - destruct (scaled_nearest m e) as [Hn Hq].
    exists (scaled 3 m e). split; [by apply thousandths_fixed|exact Hq].
Qed.

End Shown.

(** ** The outcomes of the methods *)

Section Outcomes.

(** X18. Swimming.get_mean_speed, once length_pool * count_pool / 1000 was
    computed, raises ZeroDivisionError exactly for a zero duration,
    OverflowError for a duration beyond the binary64 range, and otherwise
    returns the rounded quotient; the action count plays no part. *)
Theorem swimming_speed_outcome (a d w l c q : num) :
  val l *' val c /' val (int_lit 1000) = Ok q ->
  get_mean_speed (SwimmingObj a d w l c)
  = if is_real d then
      if py_is_zero d then Raise ZeroDivisionError
      else Ok (PFloat (F64.div (to_double q) (to_double d)))
    else Raise OverflowError.
Proof.
  intros Hq. cbn [get_mean_speed]. unfold Training.M_IN_KM.
  unfold lift2 at 1. rewrite Hq. cbn [mbind result_bind val].
  apply OpFacts.lift2_Ok in Hq as (p & k & _ & _ & Hq).
  apply OpFacts.py_truediv_float in Hq as [fq ->].
  apply OpFacts.py_truediv_l_eq.
Qed.

End Outcomes.

(** ** Instances of the further properties *)

Section MoreInstances.

#[local] Existing Instance correctly_rounded.

Local Open Scope string_scope.

Lemma get_mean_speed_outcome_witness :
  __class__ demo_running <> Swimming
  /\ get_mean_speed demo_running
     = Ok (PFloat (speed_f64 (F64.of_Z 15000) (step_f64 Running) (F64.of_Z 1))).
Proof.
  assert (H : __class__ demo_running <> Swimming) by discriminate.
  split; [exact H|].
  rewrite (get_mean_speed_outcome demo_running H). reflexivity.
Defined.

Lemma walking_zero_height_witness :
  is_real (PInt 75) = true
  /\ is_float (pow2 (get_mean_speed
                       (SportsWalkingObj (PInt 9000) (PInt 1) (PInt 75) (PInt 0))
                     *' float_lit 278 3))
  /\ py_is_zero (PInt 0) = true
  /\ get_spent_calories (SportsWalkingObj (PInt 9000) (PInt 1) (PInt 75) (PInt 0))
     = Raise ZeroDivisionError.
Proof.
  assert (H : is_float (pow2 (get_mean_speed
                (SportsWalkingObj (PInt 9000) (PInt 1) (PInt 75) (PInt 0))
              *' float_lit 278 3))) by (eexists; vm_compute; reflexivity).
  split; [reflexivity|]. split; [exact H|]. split; [reflexivity|].
  exact (walking_zero_height (PInt 9000) (PInt 1) (PInt 75) (PInt 0)
           eq_refl H eq_refl).
Defined.

Lemma base_class_no_report_witness :
  is_real (PInt 15000) = true /\ is_real (PInt 1) = true
  /\ py_is_zero (PInt 1) = false
  /\ show_training_info (TrainingObj (PInt 15000) (PInt 1) (PInt 75))
     = Raise NotImplementedError.
Proof.
  repeat (split; [reflexivity|]).
  apply (proj2 (proj2 (base_class_no_report (PInt 15000) (PInt 1) (PInt 75))));
    reflexivity.
Defined.

Lemma main_prints_witness :
  show_training_info demo_walking = Ok demo_walking_info
  /\ main demo_walking
     = Str.Done (Ok (Spec.line "SportsWalking"
                       (Fmt.float_f 3 (F64.of_Z 1))
                       (Fmt.float_f 3 (to_double (InfoMessage.distance demo_walking_info)))
                       (Fmt.float_f 3 (to_double (InfoMessage.speed demo_walking_info)))
                       (Fmt.float_f 3 (to_double (InfoMessage.calories demo_walking_info))))).
Proof.
  assert (H : show_training_info demo_walking = Ok demo_walking_info)
    by (vm_compute; reflexivity).
  split; [exact H|]. exact (main_prints demo_walking demo_walking_info H).
Defined.

Lemma read_package_arity_witness :
  training_types !! "RUN" = Some Running
  /\ (read_package "RUN" [PInt 15000; PInt 1] = Raise TypeError
      <-> length [PInt 15000; PInt 1] <> arity Running).
Proof.
  assert (H : training_types !! "RUN" = Some Running) by (vm_compute; reflexivity).
  split; [exact H|].
  exact (proj1 (proj1 (read_package_arity "RUN" [PInt 15000; PInt 1]) Running H)).
Defined.

Lemma main_failures_witness :
  read_package "RUN" [PInt 15000; PInt 0; PInt 75]
  = Ok (RunningObj (PInt 15000) (PInt 0) (PInt 75))
  /\ main (RunningObj (PInt 15000) (PInt 0) (PInt 75))
     = Str.Done (Raise ZeroDivisionError)
  /\ arith_error ZeroDivisionError.
Proof.
  assert (H1 : read_package "RUN" [PInt 15000; PInt 0; PInt 75]
               = Ok (RunningObj (PInt 15000) (PInt 0) (PInt 75)))
    by (vm_compute; reflexivity).
  assert (H2 : main (RunningObj (PInt 15000) (PInt 0) (PInt 75))
               = Str.Done (Raise ZeroDivisionError)) by (vm_compute; reflexivity).
  split; [exact H1|]. split; [exact H2|].
  exact (proj2 (main_failures _ _ _ H1) ZeroDivisionError H2).
Defined.

Lemma script_outcome_witness :
  printed [("RUN", [PInt 15000; PInt 1; PInt 75])]
    ["Тип тренировки: Running; Длительность: 1.000 ч.; Дистанция: 9.750 км; Ср. скорость: 9.750 км/ч; Потрачено ккал: 797.805."]
  /\ turn ("XYZ", []) = Str.Done (Raise ValueError)
  /\ script [("RUN", [PInt 15000; PInt 1; PInt 75]); ("XYZ", []);
             ("SWM", [PInt 720; PInt 1; PInt 80; PInt 25; PInt 40])]
     = (["Тип тренировки: Running; Длительность: 1.000 ч.; Дистанция: 9.750 км; Ср. скорость: 9.750 км/ч; Потрачено ккал: 797.805."],
        Aborted ValueError).
Proof.
  assert (H1 : printed [("RUN", [PInt 15000; PInt 1; PInt 75])]
    ["Тип тренировки: Running; Длительность: 1.000 ч.; Дистанция: 9.750 км; Ср. скорость: 9.750 км/ч; Потрачено ккал: 797.805."]).
  { constructor; [vm_compute; reflexivity|constructor]. }
  assert (H2 : turn ("XYZ", []) = Str.Done (Raise ValueError))
    by (vm_compute; reflexivity).
  split; [exact H1|]. split; [exact H2|].
  apply (proj2 (proj2 (proj2 (proj2 (proj2 (proj2 (script_outcome _))))) _ _)).
  exists [("RUN", [PInt 15000; PInt 1; PInt 75])], ("XYZ", []),
    [("SWM", [PInt 720; PInt 1; PInt 80; PInt 25; PInt 40])].
  split; [reflexivity|]. split; [exact H1|exact H2].
Defined.

Lemma distance_speed_nonneg_witness :
  py_nonneg (action demo_running) = true
  /\ is_real (action demo_running) = true
  /\ nonneg_val (get_distance demo_running).
Proof.
  repeat (split; [reflexivity|]).
  exact (proj1 (distance_speed_nonneg demo_running eq_refl eq_refl)).
Defined.

Lemma distance_accuracy_witness :
  action demo_running = PInt 15000 /\ 0 < 15000 < 2 ^ 53
  /\ within (get_distance demo_running)
       (inject_Z 15000 * step_Q Running * (1 # 1000)) (1 # 2 ^ 51).
Proof.
  assert (H : 0 < 15000 < 2 ^ 53) by (split; reflexivity).
  split; [reflexivity|]. split; [exact H|].
  exact (distance_accuracy demo_running 15000 eq_refl H).
Defined.

Lemma speed_accuracy_witness :
  __class__ demo_walking <> Swimming
  /\ action demo_walking = PInt 9000 /\ duration demo_walking = PInt 1
  /\ 0 < 9000 < 2 ^ 53 /\ 0 < 1 < 2 ^ 53
  /\ within (get_mean_speed demo_walking)
       (inject_Z 9000 * step_Q SportsWalking * (1 # 1000) / inject_Z 1)
       (1 # 2 ^ 50).
Proof.
  assert (Hc : __class__ demo_walking <> Swimming) by discriminate.
  assert (Ha : 0 < 9000 < 2 ^ 53) by (split; reflexivity).
  assert (Hk : 0 < 1 < 2 ^ 53) by (split; reflexivity).
  split; [exact Hc|]. split; [reflexivity|]. split; [reflexivity|].
  split; [exact Ha|]. split; [exact Hk|].
  exact (speed_accuracy demo_walking 9000 1 Hc eq_refl eq_refl Ha Hk).
Defined.

Lemma shown_rounding_witness :
  F64.is_finite (F64.lit 797805 3) = true
  /\ exists n : Z,
       thousandths (Fmt.float_f 3 (F64.lit 797805 3)) = Some n
       /\ (Qabs (inject_Z n - 1000 * F64.to_Q (SFabs (F64.lit 797805 3)))
           <= 1 # 2)%Q.
Proof.
  split; [reflexivity|]. exact (shown_rounding (F64.lit 797805 3) eq_refl).
Defined.

Lemma swimming_speed_outcome_witness :
  val (PInt 25) *' val (PInt 40) /' val (int_lit 1000) = Ok (PFloat (F64.of_Z 1))
  /\ get_mean_speed
       (SwimmingObj (PInt 720) (PInt 0) (PInt 80) (PInt 25) (PInt 40))
     = Raise ZeroDivisionError.
Proof.
  assert (H : val (PInt 25) *' val (PInt 40) /' val (int_lit 1000)
              = Ok (PFloat (F64.of_Z 1))) by (vm_compute; reflexivity).
  split; [exact H|].
  exact (swimming_speed_outcome (PInt 720) (PInt 0) (PInt 80) (PInt 25)
           (PInt 40) _ H).
Defined.

End MoreInstances.
